(** * The IEP interpreter kernel (iep/iepkernel/interpreter.py)

    A shallow embedding of the parts of [IepInterpreter] and
    [ExecutedSourceCollection] that decide how origin tags, the source
    registry, the encoding-cookie rewrite, the line buffer, exception
    dispatch, the last-exception globals, the REPL-loop handlers, the exit
    intent and the execution counter behave.

    Python values are modelled as the code has them: [int] as [Z], [str] as
    [string] (one [ascii] per code point below 256), lists as [list], the
    [dict] behind the source registry as a [gmap], [None] as [None].
    Stateful methods are functions in a small state-and-exception monad
    over the interpreter object, which also carries the three
    [sys.last_*] globals and the trace of what the kernel emitted.

    Collaborators that are not part of the module (the command compiler,
    the executed unit, IPython, the magician, the debugger, the GUI
    application, [traceback.format_exception_only], [os.path.split]) are
    fields of a [World] record, so every statement below holds for all of
    their behaviours.  Two things are fixed about them: the executed unit
    and IPython act on the user namespace and do not reach into the
    interpreter object's own attributes, and [sys.exc_info()] is passed to
    the two formatting methods as an argument. *)

From Stdlib Require Import ZArith String Ascii List Bool Lia.
From stdpp Require Import gmap strings.

Local Open Scope Z_scope.

(** ** Python built-ins used by the kernel *)

Module Py.

Definition code_point (c : ascii) : Z := Z.of_nat (nat_of_ascii c).

(** [c.isdigit()] restricted to the decimal digits [0]..[9]. *)
Definition is_digit (c : ascii) : bool :=
  (48 <=? code_point c) && (code_point c <=? 57).

Definition digit_val (c : ascii) : Z := code_point c - 48.

(** Whitespace as [str.strip()] and [int()] see it (code points < 256). *)
Definition is_space (c : ascii) : bool :=
  let n := code_point c in
  ((9 <=? n) && (n <=? 13)) || ((28 <=? n) && (n <=? 32))
  || (n =? 133) || (n =? 160).

(** Line boundaries of [str.splitlines()] (code points < 256). *)
Definition is_linebreak (c : ascii) : bool :=
  let n := code_point c in
  ((10 <=? n) && (n <=? 13)) || ((28 <=? n) && (n <=? 30)) || (n =? 133).

Definition LF : ascii := ascii_of_nat 10.
Definition CR : ascii := ascii_of_nat 13.
Definition nl : string := String LF EmptyString.

Definition len (s : string) : Z := Z.of_nat (String.length s).

(** [s.find(ch)] for a one-character needle: index of the FIRST
    occurrence, [-1] when there is none. *)
Fixpoint find_from (ch : ascii) (s : string) (i : Z) : Z :=
  match s with
  | EmptyString => -1
  | String c s' => if Ascii.eqb c ch then i else find_from ch s' (i + 1)
  end.

Definition find (ch : ascii) (s : string) : Z := find_from ch s 0.

Fixpoint drop (n : nat) (s : string) : string :=
  match n, s with
  | O, _ => s
  | S _, EmptyString => EmptyString
  | S k, String _ s' => drop k s'
  end.

Fixpoint take (n : nat) (s : string) : string :=
  match n, s with
  | O, _ => EmptyString
  | S _, EmptyString => EmptyString
  | S k, String c s' => String c (take k s')
  end.

(** [s[i:]] and [s[:i]] for a non-negative index [i]. *)
Definition slice_from (i : Z) (s : string) : string := drop (Z.to_nat i) s.
Definition slice_to (i : Z) (s : string) : string := take (Z.to_nat i) s.

Fixpoint lstrip (s : string) : string :=
  match s with
  | EmptyString => EmptyString
  | String c s' => if is_space c then lstrip s' else s
  end.

Fixpoint rstrip (s : string) : string :=
  match s with
  | EmptyString => EmptyString
  | String c s' =>
      match rstrip s' with
      | EmptyString => if is_space c then EmptyString else String c EmptyString
      | r => String c r
      end
  end.

Definition strip (s : string) : string := rstrip (lstrip s).

(** The digit part of an integer literal given to [int()]: decimal digits,
    single underscores allowed between two digits.  [prev] tells whether
    the previous character was a digit. *)
Fixpoint int_digits (s : string) (acc : Z) (prev : bool) : option Z :=
  match s with
  | EmptyString => if prev then Some acc else None
  | String c s' =>
      if is_digit c then int_digits s' (10 * acc + digit_val c) true
      else if Ascii.eqb c "_" && prev then int_digits s' acc false
      else None
  end.

(** [int(s)] on a string; [None] stands for [ValueError]. *)
Definition int (s : string) : option Z :=
  match strip s with
  | String c r =>
      if Ascii.eqb c "+" then int_digits r 0 false
      else if Ascii.eqb c "-" then option_map Z.opp (int_digits r 0 false)
      else int_digits (String c r) 0 false
  | EmptyString => None
  end.

Definition digit_char (d : Z) : ascii := ascii_of_nat (48 + Z.to_nat d).

Fixpoint dec_digits (fuel : nat) (n : Z) (acc : string) : string :=
  match fuel with
  | O => acc
  | S f =>
      let acc' := String (digit_char (n mod 10)) acc in
      if n <? 10 then acc' else dec_digits f (n / 10) acc'
  end.

Definition dec (n : Z) : string :=
  dec_digits (S (Z.to_nat (Z.log2 n))) n EmptyString.

(** ["%i" % n] *)
Definition fmt_i (n : Z) : string :=
  if n <? 0 then String "-" (dec (- n)) else dec n.

(** [sep.join(parts)] *)
Fixpoint join (sep : string) (parts : list string) : string :=
  match parts with
  | [] => EmptyString
  | [p] => p
  | p :: ps => p +:+ sep +:+ join sep ps
  end.

(** [s.split(sep, maxsplit)] for a one-character separator; [cur] is the
    part being read. *)
Fixpoint split_from (sep : ascii) (maxsplit : nat) (s cur : string)
  : list string :=
  match s with
  | EmptyString => [cur]
  | String c s' =>
      match maxsplit with
      | O => [cur +:+ s]
      | S k =>
          if Ascii.eqb c sep then cur :: split_from sep k s' EmptyString
          else split_from sep maxsplit s' (cur +:+ String c EmptyString)
      end
  end.

Definition split_max (sep : ascii) (maxsplit : nat) (s : string) :=
  split_from sep maxsplit s EmptyString.

(** [s.split(sep)] (no limit): a string has fewer separators than
    characters plus one. *)
Definition split (sep : ascii) (s : string) : list string :=
  split_from sep (S (String.length s)) s EmptyString.

(** [s.count(ch)] *)
Fixpoint count (ch : ascii) (s : string) : Z :=
  match s with
  | EmptyString => 0
  | String c s' => (if Ascii.eqb c ch then 1 else 0) + count ch s'
  end.

(** [needle in s] *)
Fixpoint contains (needle s : string) : bool :=
  String.prefix needle s ||
  match s with
  | EmptyString => false
  | String _ s' => contains needle s'
  end.

(** [s.replace(old, new)] for a non-empty [old]: occurrences are replaced
    left to right without overlap; [skip] counts the characters of a
    matched occurrence still to be dropped. *)
Fixpoint replace_from (old new : string) (skip : nat) (s : string) : string :=
  match s with
  | EmptyString => EmptyString
  | String c s' =>
      match skip with
      | S k => replace_from old new k s'
      | O =>
          if String.prefix old s
          then new +:+ replace_from old new (String.length old - 1) s'
          else String c (replace_from old new 0 s')
      end
  end.

Definition replace (old new s : string) : string := replace_from old new 0 s.

(** [s.splitlines()]: [\r\n] counts as one boundary, no empty last line. *)
Fixpoint splitlines_from (s cur : string) : list string :=
  match s with
  | EmptyString =>
      match cur with EmptyString => [] | _ => [cur] end
  | String c s' =>
      if is_linebreak c then
        match s' with
        | String c' s'' =>
            if Ascii.eqb c CR && Ascii.eqb c' LF
            then cur :: splitlines_from s'' EmptyString
            else cur :: splitlines_from s' EmptyString
        | EmptyString => cur :: splitlines_from s' EmptyString
        end
      else splitlines_from s' (cur +:+ String c EmptyString)
  end.

Definition splitlines (s : string) : list string :=
  splitlines_from s EmptyString.

(** [l[i]] with Python's negative indices; [None] stands for
    [IndexError]. *)
Definition index {A} (l : list A) (i : Z) : option A :=
  let n := Z.of_nat (length l) in
  let k := if i <? 0 then i + n else i in
  if (0 <=? k) && (k <? n) then nth_error l (Z.to_nat k) else None.

(** [s.rstrip('\n')] *)
Fixpoint rstrip_nl (s : string) : string :=
  match s with
  | EmptyString => EmptyString
  | String c s' =>
      match rstrip_nl s' with
      | EmptyString => if Ascii.eqb c LF then EmptyString else String c EmptyString
      | r => String c r
      end
  end.

(** [s.startswith(p)] *)
Definition startswith (p s : string) : bool := String.prefix p s.

End Py.

(** ** Origin tags *)

(** The tag [runlargecode] gives a unit: ["%s+%i" % (fname, lineno)]. *)
Definition origin_tag (fname : string) (lineno : Z) : string :=
  fname +:+ "+" +:+ Py.fmt_i lineno.

(** [IepInterpreter.correctfilenameandlineno] *)
Definition correctfilenameandlineno (fname : string) (lineno : Z)
  : string * Z :=
  let j := Py.find "+" fname in
  if 0 <? j then
    match Py.int (Py.slice_from (j + 1) fname) with
    | Some k => (Py.slice_to j fname, lineno + k)
    | None => (fname, lineno)
    end
  else (fname, lineno).

(** ** Code objects and the source registry *)

(** A code object: [co_id] stands for [id(codeObject)]. *)
Record code := Code { co_id : Z; co_filename : string; co_name : string }.

(** [class ExecutedSourceCollection(dict)]: the keys are whatever [_getId]
    returns, [None] or a [str]. *)
Module ExecutedSourceCollection.

Abbreviation t := (gmap (option string) string).

(** [_getId] binds [id_] and falls off the end of the function. *)
Definition _getId (codeObject : code) : option string :=
  let id_ := Py.fmt_i (co_id codeObject) +:+ "_" +:+ co_filename codeObject in
  None.

Definition storeSource (self : t) (codeObject : code) (source : string) : t :=
  <[ _getId codeObject := source ]> self.

Definition getSource (self : t) (codeObject : code) : string :=
  default EmptyString (self !! _getId codeObject).

(** The registry after a sequence of [storeSource] calls, oldest first. *)
Definition stored (calls : list (code * string)) : t :=
  fold_left (fun d cs => storeSource d (fst cs) (snd cs)) calls ∅.

End ExecutedSourceCollection.

(** ** The encoding-cookie rewrite of [compilecode] *)

Definition ci : string := "coding is".

(** [tmp and tmp[0] == '#' and 'coding' in tmp] *)
Definition has_coding (tmp : string) : bool :=
  match tmp with
  | EmptyString => false
  | String c _ => Ascii.eqb c "#" && Py.contains "coding" tmp
  end.

(** The loop [for i in range(len(parts)-1)]: every part but the last one is
    inspected; returns [contained_coding] and the updated [parts]. *)
Fixpoint mangle_parts (parts : list string) : bool * list string :=
  match parts with
  | [] => (false, [])
  | [rest] => (false, [rest])
  | tmp :: parts' =>
      let '(contained_coding, out) := mangle_parts parts' in
      if has_coding tmp
      then (true, Py.replace "coding:" ci (Py.replace "coding=" ci tmp) :: out)
      else (contained_coding, tmp :: out)
  end.

(** The source [compilecode] hands to the command compiler. *)
Definition mangled_source (source : string) : string :=
  let parts := Py.split_max Py.LF 2 source in
  let '(contained_coding, parts') := mangle_parts parts in
  if contained_coding then Py.join Py.nl parts' else source.

(** ** Exceptions *)

Inductive exc_class :=
| BaseException | Exception | SystemExit | KeyboardInterrupt | GeneratorExit
| BdbQuit | SyntaxError | IndentationError | OverflowError | ValueError
| TypeError | ZeroDivisionError | RuntimeError | IndexError | AttributeError.

Definition exc_class_eqb (a b : exc_class) : bool :=
  match a, b with
  | BaseException, BaseException | Exception, Exception
  | SystemExit, SystemExit | KeyboardInterrupt, KeyboardInterrupt
  | GeneratorExit, GeneratorExit | BdbQuit, BdbQuit
  | SyntaxError, SyntaxError | IndentationError, IndentationError
  | OverflowError, OverflowError | ValueError, ValueError
  | TypeError, TypeError | ZeroDivisionError, ZeroDivisionError
  | RuntimeError, RuntimeError | IndexError, IndexError
  | AttributeError, AttributeError => true
  | _, _ => false
  end.

(** The base class, as in Python's built-in hierarchy and [bdb]. *)
Definition exc_base (c : exc_class) : option exc_class :=
  match c with
  | BaseException => None
  | Exception | SystemExit | KeyboardInterrupt | GeneratorExit =>
      Some BaseException
  | IndentationError => Some SyntaxError
  | BdbQuit | SyntaxError | OverflowError | ValueError | TypeError
  | ZeroDivisionError | RuntimeError | IndexError | AttributeError =>
      Some Exception
  end.

Fixpoint issubclass_upto (depth : nat) (c d : exc_class) : bool :=
  exc_class_eqb c d ||
  match depth, exc_base c with
  | S k, Some b => issubclass_upto k b d
  | _, _ => false
  end.

(** [issubclass(c, d)]; the hierarchy is three levels deep. *)
Definition issubclass (c d : exc_class) : bool := issubclass_upto 3 c d.

(** The [args] of an exception value: the shape a [SyntaxError] raised by
    the compiler has, [(msg, (filename, lineno, offset, line))], or
    anything else (kept as its text). *)
Inductive exc_args :=
| SyntaxArgs (msg filename : string) (lineno offset : Z) (line : string)
| OtherArgs (text : string).

Record exc_value := ExcValue { e_class : exc_class; e_args : exc_args }.

Record frame := Frame { f_code : code }.

(** One link of a traceback chain; [tb_text] is the line [linecache]
    finds for the frame's file name, if any. *)
Record tb_entry := TbEntry
  { tb_frame : frame; tb_lineno : Z; tb_text : option string }.

(** A traceback is its [tb_next] chain; [[]] is [None]. *)
Abbreviation traceback := (list tb_entry).

(** What [sys.exc_info()] returns inside a handler: the value (its type is
    [e_class]) and the traceback. *)
Record raised := Raised { r_value : exc_value; r_tb : traceback }.

Definition r_class (r : raised) : exc_class := e_class (r_value r).

Inductive outcome (A : Type) :=
| Return (a : A)
| Raise (r : raised).
Arguments Return {A} a.
Arguments Raise {A} r.

(** ** The interpreter object *)

(** Everything the kernel emits or asks of its surroundings, in order. *)
Inductive event :=
| Stderr (text : string)        (* self.write *)
| Stdout (text : string)        (* print, printDirect *)
| Echo (text : string)          (* context._strm_echo.send *)
| Prompt (text : string)        (* context._strm_prompt.send *)
| Status (text : string)        (* context._stat_interpreter.send *)
| Sleep (milliseconds : Z)      (* time.sleep *)
| Exec (unit_ : code)           (* exec(code, ...) *)
| RunCell (source : string)     (* self._ipython.run_cell(source, True) *)
| StopInteraction               (* self.debugger.stopinteraction() *)
| GuiQuit.                      (* self.guiApp.quit() *)

(** The attributes of [IepInterpreter] the modelled methods read or write,
    the three [sys.last_*] globals, and the trace of emitted events (newest
    first).  [_ipython] is [None] or the shell, of which only
    [execution_count] matters. *)
Record interp := Interp
  { _filename : string;
    _buffer : list string;
    more : bool;
    newPrompt : bool;
    _dbFrames : list frame;
    _dbFrameName : string;
    _ipython : option Z;
    _codeCollection : ExecutedSourceCollection.t;
    guiName : string;
    _exitException : option exc_value;
    _scriptToRunOnStartup : option string;
    sys_last_type : option exc_class;
    sys_last_value : option exc_value;
    sys_last_traceback : option traceback;
    trace : list event }.

Definition set_buffer (v : list string) (s : interp) : interp :=
  let 'Interp a _ c d e f g h i j k l m n o := s in
  Interp a v c d e f g h i j k l m n o.
Definition set_more (v : bool) (s : interp) : interp :=
  let 'Interp a b _ d e f g h i j k l m n o := s in
  Interp a b v d e f g h i j k l m n o.
Definition set_newPrompt (v : bool) (s : interp) : interp :=
  let 'Interp a b c _ e f g h i j k l m n o := s in
  Interp a b c v e f g h i j k l m n o.
Definition set_ipython (v : option Z) (s : interp) : interp :=
  let 'Interp a b c d e f _ h i j k l m n o := s in
  Interp a b c d e f v h i j k l m n o.
Definition set_codeCollection (v : ExecutedSourceCollection.t) (s : interp)
  : interp :=
  let 'Interp a b c d e f g _ i j k l m n o := s in
  Interp a b c d e f g v i j k l m n o.
Definition set_exitException (v : option exc_value) (s : interp) : interp :=
  let 'Interp a b c d e f g h i _ k l m n o := s in
  Interp a b c d e f g h i v k l m n o.
Definition set_scriptToRunOnStartup (v : option string) (s : interp) : interp :=
  let 'Interp a b c d e f g h i j _ l m n o := s in
  Interp a b c d e f g h i j v l m n o.
Definition set_last_type (v : option exc_class) (s : interp) : interp :=
  let 'Interp a b c d e f g h i j k _ m n o := s in
  Interp a b c d e f g h i j k v m n o.
Definition set_last_value (v : option exc_value) (s : interp) : interp :=
  let 'Interp a b c d e f g h i j k l _ n o := s in
  Interp a b c d e f g h i j k l v n o.
Definition set_last_traceback (v : option traceback) (s : interp) : interp :=
  let 'Interp a b c d e f g h i j k l m _ o := s in
  Interp a b c d e f g h i j k l m v o.
Definition emit (ev : event) (s : interp) : interp :=
  let 'Interp a b c d e f g h i j k l m n o := s in
  Interp a b c d e f g h i j k l m n (ev :: o).

(** The kernel is in debug mode when [self._dbFrames] is non-empty. *)
Definition in_debug (s : interp) : bool :=
  match _dbFrames s with [] => false | _ => true end.

(** The [sys.last_type], [sys.last_value], [sys.last_traceback] triple. *)
Definition sys_last (s : interp)
  : option exc_class * option exc_value * option traceback :=
  (sys_last_type s, sys_last_value s, sys_last_traceback s).

(** The events in the order they happened. *)
Definition events (s : interp) : list event := rev (trace s).

(** Computations of the kernel: state passing with exceptions. *)
Definition M (A : Type) : Type := interp -> outcome A * interp.

Definition ret {A} (a : A) : M A := fun s => (Return a, s).
Definition raise {A} (r : raised) : M A := fun s => (Raise r, s).
Definition bind {A B} (m : M A) (k : A -> M B) : M B :=
  fun s => match m s with
           | (Return a, s') => k a s'
           | (Raise r, s') => (Raise r, s')
           end.
Definition modify (f : interp -> interp) : M unit := fun s => (Return tt, f s).
Definition get {A} (f : interp -> A) : M A := fun s => (Return (f s), s).
Definition self : M interp := fun s => (Return s, s).

Notation "x <- m ;; k" := (bind m (fun x => k))
  (at level 100, m at next level, right associativity).
Notation "m ;;; k" := (bind m (fun _ => k))
  (at level 100, right associativity).

(** [for x in xs: body(x)] *)
Fixpoint for_each {A} (xs : list A) (body : A -> M unit) : M unit :=
  match xs with
  | [] => ret tt
  | x :: xs' => body x ;;; for_each xs' body
  end.

(** A block message on [ctrl_code]. *)
Record block_msg := BlockMsg
  { msg_source : string; msg_fname : string; msg_lineno : Z;
    msg_cellName : string }.

(** What one pass of [_process_commands] finds outside the interpreter:
    the state of the connection and the channel [select_sub_channel]
    picked, with what [recv(False)] returns on it. *)
Inductive selected :=
| NoChannel
| CtrlCommand (line1 : string)
| CtrlCode (msg : option block_msg)
| OtherChannel.

Record tick := Tick
  { stdin_closed : bool; connection_count : Z; channel : selected }.

(** The collaborators of the module.  [_compile] is the [CommandCompiler]:
    a code object, [None] for incomplete input, or an exception.
    [exec_unit] is the body of the [try] in [execcode] (breakpoints,
    tracing and [exec]): it ends normally or with an exception whose
    traceback starts at the kernel's own frame. *)
Record World := MkWorld
  { PYTHON_VERSION : Z;
    _compile : string -> string -> string -> outcome (option code);
    exec_unit : code -> option raised;
    run_cell : string -> Z -> outcome unit * Z;
    convert_command : string -> outcome (option string);
    format_exception_only : option exc_class -> option exc_value -> list string;
    os_path_split_tail : string -> string;
    read_script : string -> option string;
    debugger_stopinteraction : outcome unit;
    guiApp_quit : outcome unit;
    guiApp_run : (tick -> M unit) -> M unit }.

(** [try: m  except C1: h1  except C2: h2 ...]: the first clause that
    accepts the exception handles it; an exception raised by a handler is
    not offered to the later clauses. *)
Fixpoint first_clause {A} (clauses : list ((raised -> bool) * (raised -> M A)))
  (r : raised) : M A :=
  match clauses with
  | [] => raise r
  | (accepts, h) :: rest => if accepts r then h r else first_clause rest r
  end.

Definition try_clauses {A} (m : M A)
  (clauses : list ((raised -> bool) * (raised -> M A))) : M A :=
  fun s => match m s with
           | (Return a, s') => (Return a, s')
           | (Raise r, s') => first_clause clauses r s'
           end.

Definition isinstance (c : exc_class) (r : raised) : bool :=
  issubclass (r_class r) c.

Definition new_exc (c : exc_class) (text : string) : raised :=
  Raised (ExcValue c (OtherArgs text)) [].

Definition ESC : string := String (ascii_of_nat 27) EmptyString.
Definition dq : string := String (ascii_of_nat 34) EmptyString.

Section Kernel.

Variable w : World.

(** [self.write(text)] *)
Definition write (text : string) : M unit := modify (emit (Stderr text)).

(** [self._resetbuffer()] *)
Definition _resetbuffer : M unit := modify (set_buffer []).

(** [str(sys.ps1)] and [str(sys.ps2)], classes [PS1] and [PS2]. *)
Definition PS1 (s : interp) : string :=
  if in_debug s then
    ESC +:+ "[0;32m" +:+ ("(" +:+ _dbFrameName s +:+ ")") +:+ ">>> "
  else match _ipython s with
       | Some execution_count =>
           ESC +:+ "[0;32mIn [" +:+ ESC +:+ "[1;32m"
             +:+ Py.fmt_i execution_count +:+ ESC +:+ "[0;32m]: "
       | None => ESC +:+ "[0;32m>>> "
       end.

Fixpoint spaces (n : nat) : string :=
  match n with O => EmptyString | S k => String " " (spaces k) end.

Definition PS2 (s : interp) : string :=
  if in_debug s then
    ESC +:+ "[0;32m" +:+ ("(" +:+ _dbFrameName s +:+ ")") +:+ "... "
  else match _ipython s with
       | Some execution_count =>
           let nspaces := (String.length (Py.fmt_i execution_count) + 2)%nat in
           ESC +:+ "[0;32m" +:+ spaces nspaces +:+ "...: "
       | None => ESC +:+ "[0;32m... "
       end.

(** [compilecode(source, filename, mode)].  On Python 2 the file name is
    encoded to UTF-8 here and decoded again by [showtraceback]; names are
    kept as their code points throughout, so both steps are the identity. *)
Definition compilecode (source filename mode : string)
  : outcome (option code) :=
  _compile w (mangled_source source) filename mode.

(** [msg, (dummy_filename, lineno, offset, line) = value]: exceptions can
    be unpacked only on Python 2, and only when [args] has that shape. *)
Definition unpack_syntax (value : exc_value)
  : option (string * Z * Z * string) :=
  if PYTHON_VERSION w <? 3 then
    match e_args value with
    | SyntaxArgs msg _ lineno offset line => Some (msg, lineno, offset, line)
    | OtherArgs _ => None
    end
  else None.

Definition is_SyntaxError (c : option exc_class) : bool :=
  match c with Some SyntaxError => true | _ => false end.

(** [showsyntaxerror(filename)]; [exc_info] is what [sys.exc_info()]
    returns when the method starts. *)
Definition showsyntaxerror (exc_info : option raised) (filename : string)
  : M unit :=
  let type := option_map r_class exc_info in
  let value := option_map r_value exc_info in
  value' <-
    (match filename, is_SyntaxError type, value with
     | String _ _, true, Some v =>
         match unpack_syntax v with
         | Some (msg, lineno, offset, line) =>
             let '(fname, lineno') := correctfilenameandlineno filename lineno in
             let v' := ExcValue SyntaxError
                         (SyntaxArgs msg fname lineno' offset line) in
             modify (set_last_value (Some v')) ;;; ret (Some v')
         | None => ret value
         end
     | _, _, _ => ret value
     end) ;;
  for_each (format_exception_only w type value') write.

(** An entry of [tblist]: (filename, line number, function name, text). *)
Definition tbinfo : Type := string * Z * string * option string.

(** [traceback.extract_tb(tb)] *)
Definition extract_tb (tb : traceback) : list tbinfo :=
  map (fun e => (co_filename (f_code (tb_frame e)), tb_lineno e,
                 co_name (f_code (tb_frame e)), tb_text e)) tb.

(** One round of the loop [for i in range(len(tblist))]. *)
Definition rewrite_entry (coll : ExecutedSourceCollection.t)
  (frames : list frame) (i : nat) (tbInfo : tbinfo) : tbinfo :=
  let '(f, l, name, text) := tbInfo in
  let '(fname, lineno) := correctfilenameandlineno f l in
  let example := text in
  let source :=
    match nth_error frames i with
    | Some fr => Some (ExecutedSourceCollection.getSource coll (f_code fr))
    | None => None
    end in
  let example :=
    match source with
    | Some (String _ _ as src) =>
        match Py.index (Py.splitlines src) (l - 1) with
        | Some line => Some line
        | None => example
        end
    | _ => example
    end in
  (fname, lineno, name, example).

Fixpoint rewrite_tblist (coll : ExecutedSourceCollection.t)
  (frames : list frame) (i : nat) (tblist : list tbinfo) : list tbinfo :=
  match tblist with
  | [] => []
  | tbInfo :: rest =>
      rewrite_entry coll frames i tbInfo
        :: rewrite_tblist coll frames (S i) rest
  end.

(** [traceback.format_list] *)
Definition format_entry (t : tbinfo) : string :=
  let '(filename, lineno, name, line) := t in
  let item := "  File " +:+ dq +:+ filename +:+ dq +:+ ", line "
                +:+ Py.fmt_i lineno +:+ ", in " +:+ name +:+ Py.nl in
  match line with
  | Some (String _ _ as text) =>
      item +:+ "    " +:+ Py.strip text +:+ Py.nl
  | _ => item
  end.

Definition format_list (tblist : list tbinfo) : list string :=
  map format_entry tblist.

(** [frames.pop(0)] *)
Definition pop0 (frames : list frame) : M (list frame) :=
  match frames with
  | [] => raise (new_exc IndexError "pop from empty list")
  | _ :: rest => ret rest
  end.

(** [tb = tb.tb_next] *)
Definition tb_next (tb : traceback) : M traceback :=
  match tb with
  | [] => raise (new_exc AttributeError "'NoneType' object has no attribute 'tb_next'")
  | _ :: rest => ret rest
  end.

(** [showtraceback(useLastTraceback)]; [cur] is the exception being
    handled by the caller. *)
Definition showtraceback (cur : raised) (useLastTraceback : bool) : M unit :=
  try_clauses
    (info <-
       (if useLastTraceback then
          s <- self ;;
          ret (sys_last_type s, sys_last_value s,
               default [] (sys_last_traceback s))
        else
          tb <- tb_next (r_tb cur) ;;
          dbg <- get in_debug ;;
          (if negb dbg then
             modify (set_last_type (Some (r_class cur))) ;;;
             modify (set_last_value (Some (r_value cur))) ;;;
             modify (set_last_traceback (Some tb))
           else ret tt) ;;;
          ret (Some (r_class cur), Some (r_value cur), tb)) ;;
     let '(type, value, tb) := info in
     let tblist := extract_tb tb in
     frames <- pop0 (map tb_frame tb) ;;
     coll <- get _codeCollection ;;
     let tblist := rewrite_tblist coll frames 0 tblist in
     let strList := format_list tblist in
     let strList :=
       match strList with
       | [] => strList
       | _ => ("Traceback (most recent call last):" +:+ Py.nl) :: strList
       end in
     let strList := strList ++ format_exception_only w type value in
     for_each strList write)
    [(isinstance Exception,
      fun _ => write ("An error occured, but could not write traceback." +:+ Py.nl))].

(** [dbstop_handler] *)
Definition dbstop_handler : M unit :=
  modify (emit (Stdout ("Program execution stopped from debugger." +:+ Py.nl))).

(** [execcode(code)] *)
Definition execcode (c : code) : M unit :=
  try_clauses
    (fun s => match exec_unit w c with
              | None => (Return tt, emit (Exec c) s)
              | Some r => (Raise r, emit (Exec c) s)
              end)
    [(isinstance BdbQuit, fun _ => dbstop_handler);
     (isinstance Exception,
      fun r => modify (emit (Sleep 200)) ;;; showtraceback r false);
     (isinstance KeyboardInterrupt,
      fun r => modify (emit (Sleep 200)) ;;; showtraceback r false)].

(** [_runlines(source, filename, symbol="single")].  The syntax error is
    shown after the [except] clause has ended: [sys.exc_info()] still
    holds the exception there on Python 2 and is cleared on Python 3. *)
Definition _runlines (source filename : string) : M bool :=
  s <- self ;;
  let use_ipython :=
    match _ipython s with Some _ => negb (in_debug s) | None => false end in
  compiled <-
    (match compilecode source filename "single" with
     | Return code_ => ret (inl code_)
     | Raise r =>
         if isinstance OverflowError r || isinstance SyntaxError r
            || isinstance ValueError r
         then ret (inr r)
         else raise r
     end) ;;
  if use_ipython then
    match compiled with
    | inl None => ret true
    | _ =>
        modify (emit (RunCell source)) ;;;
        (fun s' =>
           match _ipython s' with
           | Some n =>
               let '(res, n') := run_cell w source n in
               (res, set_ipython (Some n') s')
           | None => (Return tt, s')
           end) ;;;
        ret false
    end
  else
    match compiled with
    | inl None => ret true
    | inr r =>
        showsyntaxerror (if PYTHON_VERSION w <? 3 then Some r else None)
          filename ;;;
        ret false
    | inl (Some c) => execcode c ;;; ret false
    end.

(** [pushline(line)].  [buffer.append(line)] changes the list that
    [self._buffer] still names; [_resetbuffer] then binds a fresh one. *)
Definition pushline (line : string) : M bool :=
  old <- get _buffer ;;
  let buffer := old ++ [line] in
  modify (set_buffer buffer) ;;;
  let source := Py.join Py.nl buffer in
  _resetbuffer ;;;
  fname <- get _filename ;;
  more_ <- _runlines source fname ;;
  (if more_ then modify (set_buffer buffer) else ret tt) ;;;
  ret more_.

(** The banner of [runlargecode]. *)
Definition runtext (source fname : string) (lineno : Z) (cellName : string)
  : string :=
  let lineno1 := lineno + 1 in
  let lineno2 := lineno + Py.count Py.LF source in
  let fname_show :=
    if Py.startswith "<" fname then fname else os_path_split_tail w fname in
  match cellName with
  | String _ _ =>
      "(executing cell " +:+ dq +:+ cellName +:+ dq +:+ " (line "
        +:+ Py.fmt_i lineno1 +:+ " of " +:+ dq +:+ fname_show +:+ dq
        +:+ "))" +:+ Py.nl
  | EmptyString =>
      if lineno1 =? lineno2 then
        "(executing line " +:+ Py.fmt_i lineno1 +:+ " of " +:+ dq
          +:+ fname_show +:+ dq +:+ ")" +:+ Py.nl
      else
        "(executing lines " +:+ Py.fmt_i lineno1 +:+ " to "
          +:+ Py.fmt_i lineno2 +:+ " of " +:+ dq +:+ fname_show +:+ dq
          +:+ ")" +:+ Py.nl
  end.

Definition is_syntax_class (r : raised) : bool :=
  isinstance OverflowError r || isinstance SyntaxError r
  || isinstance ValueError r.

(** The tail shared by [runlargecode] and [runfile]: store the source
    under the code object and run it, or report incomplete code. *)
Definition store_and_exec (code_ : option code) (source : string) : M unit :=
  match code_ with
  | Some c =>
      modify (fun s =>
        set_codeCollection
          (ExecutedSourceCollection.storeSource (_codeCollection s) c source)
          s) ;;;
      execcode c
  | None => write ("Could not run code because it is incomplete." +:+ Py.nl)
  end.

(** [runlargecode(msg)] *)
Definition runlargecode (msg : block_msg) : M unit :=
  let source := msg_source msg +:+ Py.nl in
  let fname := msg_fname msg in
  let lineno := msg_lineno msg in
  modify (emit (Echo (ESC +:+ "[0;33m"
                        +:+ runtext source fname lineno (msg_cellName msg)))) ;;;
  modify (fun s => match _ipython s with
                   | Some execution_count =>
                       set_ipython (Some (execution_count + 1)) s
                   | None => s
                   end) ;;;
  let fname := if lineno =? 0 then fname else origin_tag fname lineno in
  match compilecode source fname "exec" with
  | Raise r =>
      if is_syntax_class r then showsyntaxerror (Some r) fname else raise r
  | Return code_ => store_and_exec code_ source
  end.

Definition CRLF : string := String Py.CR (String Py.LF EmptyString).

(** [runfile(fname)]; [read_script] is [open(fname,'rb').read().decode('UTF-8')],
    [None] when that raises. *)
Definition runfile (fname : string) : M unit :=
  match read_script w fname with
  | None =>
      modify (emit (Stdout ("Could not read script (decoding using UTF-8): "
                              +:+ dq +:+ fname +:+ dq +:+ Py.nl)))
  | Some source =>
      let source :=
        Py.replace (String Py.CR EmptyString) Py.nl
          (Py.replace CRLF Py.nl source) in
      match Py.index (list_ascii_of_string source) (-1) with
      | None =>
          modify (emit (Stdout ("Could not execute script: " +:+ dq
                                  +:+ fname +:+ dq +:+ Py.nl)))
      | Some last =>
          let source :=
            if Ascii.eqb last Py.LF then source else source +:+ Py.nl in
          match compilecode source fname "exec" with
          | Raise r =>
              if is_syntax_class r then
                modify (emit (Sleep 200)) ;;; showsyntaxerror (Some r) fname
              else raise r
          | Return code_ => store_and_exec code_ source
          end
      end
  end.

(** A collaborator's call: its effect on the trace, then its outcome. *)
Definition call (ev : event) (res : outcome unit) : M unit :=
  fun s => (res, emit ev s).

Definition send_status (text : string) : M unit := modify (emit (Status text)).

(** [_process_commands()] *)
Definition _process_commands (t : tick) : M unit :=
  script <- get _scriptToRunOnStartup ;;
  (match script with
   | Some (String _ _ as tmp) =>
       send_status "Busy" ;;;
       modify (set_scriptToRunOnStartup None) ;;;
       runfile tmp
   | _ => ret tt
   end) ;;;
  s <- self ;;
  (if newPrompt s then
     modify (set_newPrompt false) ;;;
     modify (emit (Prompt (if more s then PS2 s else PS1 s)))
   else ret tt) ;;;
  (if in_debug s then send_status "Debug"
   else if more s then send_status "More"
   else send_status "Ready") ;;;
  (if stdin_closed t || (connection_count t =? 0)
   then raise (new_exc SystemExit EmptyString)
   else ret tt) ;;;
  match channel t with
  | NoChannel => ret tt
  | CtrlCommand line1 =>
      match line1 with
      | EmptyString => ret tt
      | _ =>
          modify (emit (Echo line1)) ;;;
          send_status "Busy" ;;;
          modify (set_newPrompt true) ;;;
          match convert_command w (Py.rstrip_nl line1) with
          | Raise r => raise r
          | Return (Some line2) =>
              for_each (Py.split Py.LF line2)
                (fun line3 => m <- pushline line3 ;; modify (set_more m))
          | Return None =>
              modify (set_more false) ;;; _resetbuffer
          end
      end
  | CtrlCode msg =>
      match msg with
      | None => ret tt
      | Some msg =>
          send_status "Busy" ;;;
          modify (set_newPrompt true) ;;;
          runlargecode msg ;;;
          _resetbuffer ;;;
          modify (set_more false)
      end
  | OtherChannel => ret tt
  end.

(** [process_commands()] *)
Definition process_commands (t : tick) : M unit :=
  try_clauses (_process_commands t)
    [(isinstance KeyboardInterrupt,
      fun _ =>
        write (Py.nl +:+ "KeyboardInterrupt" +:+ Py.nl) ;;;
        _resetbuffer ;;;
        modify (set_more false));
     (isinstance TypeError,
      fun _ =>
        name <- get guiName ;;
        if String.eqb name "WX" then
          write (Py.nl +:+ "Keyboard Interrupt" +:+ Py.nl) ;;;
          _resetbuffer ;;;
          modify (set_more false)
        else ret tt);
     (isinstance SystemExit,
      fun r =>
        modify (set_exitException (Some (r_value r))) ;;;
        call StopInteraction (debugger_stopinteraction w) ;;;
        call GuiQuit (guiApp_quit w))].

(** [run()], from the point where [_prepare()] has returned. *)
Definition run : M unit :=
  modify (set_exitException None) ;;;
  try_clauses (guiApp_run w process_commands)
    [(isinstance SystemExit,
      fun r =>
        e <- get _exitException ;;
        match e with
        | None => modify (set_exitException (Some (r_value r)))
        | Some _ => ret tt
        end)] ;;;
  e <- get _exitException ;;
  let e := default (ExcValue SystemExit (OtherArgs EmptyString)) e in
  modify (set_exitException (Some e)) ;;;
  raise (Raised e []).

End Kernel.

(** ** Outcomes of the command compiler *)

(** The compiler returned [None]: more input is needed. *)
Definition incomplete (o : outcome (option code)) : bool :=
  match o with Return None => true | _ => false end.

(** The compiler returned a code object. *)
Definition complete (o : outcome (option code)) : bool :=
  match o with Return (Some _) => true | _ => false end.

(** The compiler raised [OverflowError], [SyntaxError] or [ValueError]. *)
Definition invalid (o : outcome (option code)) : bool :=
  match o with Raise r => is_syntax_class r | _ => false end.

(** ** Concrete surroundings used to evaluate the kernel *)

Module Scenario.

Definition class_name (c : exc_class) : string :=
  match c with
  | BaseException => "BaseException" | Exception => "Exception"
  | SystemExit => "SystemExit" | KeyboardInterrupt => "KeyboardInterrupt"
  | GeneratorExit => "GeneratorExit" | BdbQuit => "BdbQuit"
  | SyntaxError => "SyntaxError" | IndentationError => "IndentationError"
  | OverflowError => "OverflowError" | ValueError => "ValueError"
  | TypeError => "TypeError" | ZeroDivisionError => "ZeroDivisionError"
  | RuntimeError => "RuntimeError" | IndexError => "IndexError"
  | AttributeError => "AttributeError"
  end.

(** The last line of [traceback.format_exception_only]. *)
Definition exception_only (type : option exc_class) (value : option exc_value)
  : list string :=
  match type, value with
  | Some c, Some (ExcValue _ (OtherArgs text)) =>
      [class_name c +:+ ": " +:+ text +:+ Py.nl]
  | Some c, Some (ExcValue _ (SyntaxArgs msg filename lineno _ _)) =>
      [class_name c +:+ ": " +:+ msg +:+ " (" +:+ filename +:+ ", line "
         +:+ Py.fmt_i lineno +:+ ")" +:+ Py.nl]
  | _, _ => ["NoneType: None" +:+ Py.nl]
  end.

(** A world given by its Python version, compiler, executed unit,
    magician, [guiApp.quit] and event loop; IPython counts every cell it
    runs, and there is no start-up script. *)
Definition world (version : Z)
  (compiler : string -> string -> string -> outcome (option code))
  (unit_ : code -> option raised)
  (magician : string -> outcome (option string))
  (quit : outcome unit)
  (loop : (tick -> M unit) -> M unit) : World :=
  {| PYTHON_VERSION := version;
     _compile := compiler;
     exec_unit := unit_;
     run_cell := fun _ n => (Return tt, n + 1);
     convert_command := magician;
     format_exception_only := exception_only;
     os_path_split_tail := fun fname => fname;
     read_script := fun _ => None;
     debugger_stopinteraction := Return tt;
     guiApp_quit := quit;
     guiApp_run := loop |}.

(** The interpreter as [__init__] leaves it, with the GUI name and the
    IPython shell [_prepare] found. *)
Definition fresh (gui : string) (ipython : option Z) : interp :=
  {| _filename := "<console>";
     _buffer := [];
     more := false;
     newPrompt := true;
     _dbFrames := [];
     _dbFrameName := EmptyString;
     _ipython := ipython;
     _codeCollection := ∅;
     guiName := gui;
     _exitException := None;
     _scriptToRunOnStartup := None;
     sys_last_type := None;
     sys_last_value := None;
     sys_last_traceback := None;
     trace := [] |}.

(** The same interpreter paused in the debugger on one frame. *)
Definition paused (fr : frame) (name : string) (s : interp) : interp :=
  let 'Interp a b c d _ _ g h i j k l m n o := s in
  Interp a b c d [fr] name g h i j k l m n o.

(** Compiler that accepts every source as the unit [c]. *)
Definition compiles_to (c : code) : string -> string -> string -> outcome (option code) :=
  fun _ _ _ => Return (Some c).

(** Compiler that rejects every source with a [SyntaxError] at line 1. *)
Definition rejects : string -> string -> string -> outcome (option code) :=
  fun source filename _ =>
    Raise (Raised (ExcValue SyntaxError
                     (SyntaxArgs "invalid syntax" filename 1 4 source)) []).

Definition magician_id : string -> outcome (option string) :=
  fun line => Return (Some line).

Definition sys_exit : outcome unit := Raise (new_exc SystemExit EmptyString).

(** An event loop that invokes the callback once, on tick [t]. *)
Definition one_tick (t : tick) : (tick -> M unit) -> M unit :=
  fun callback => callback t.

Definition quiet_tick : tick := Tick false 1 NoChannel.
Definition command_tick (line : string) : tick :=
  Tick false 1 (CtrlCommand line).
Definition closed_tick : tick := Tick true 1 NoChannel.

(** The kernel's own frame, first in every traceback [execcode] sees. *)
Definition kernel_code : code := Code 1 "interpreter.py" "execcode".
Definition kernel_entry : tb_entry :=
  TbEntry (Frame kernel_code) 752 (Some "exec(code, self.locals)").

Definition cookie : string := "# -*- coding: utf-8 -*-".

Definition no_unit : code -> option raised := fun _ => None.

Definition never_complete : string -> string -> string -> outcome (option code) :=
  fun _ _ _ => Return None.

(** *** An interrupt that reaches the REPL loop *)

(** The interrupt arrives while the magician looks at the command. *)
Definition interrupted : World :=
  world 3 never_complete no_unit
    (fun _ => Raise (new_exc KeyboardInterrupt EmptyString))
    sys_exit (one_tick quiet_tick).

(** *** Two blocks of [ex.py], the first failing inside [f] *)

Definition tag1 : string := "ex.py+10".
Definition unit1 : code := Code 101 tag1 "<module>".
Definition unit1_f : code := Code 102 tag1 "f".
Definition block1 : block_msg :=
  BlockMsg ("def f():" +:+ Py.nl +:+ "    return 1/0" +:+ Py.nl +:+ "f()")
    "ex.py" 10 EmptyString.

Definition tag2 : string := "ex.py+20".
Definition unit2 : code := Code 103 tag2 "<module>".
Definition block2 : block_msg :=
  BlockMsg ("x=2" +:+ Py.nl +:+ "y=3" +:+ Py.nl +:+ "z=4")
    "ex.py" 20 EmptyString.

Definition by_tag : string -> string -> string -> outcome (option code) :=
  fun _ filename _ =>
    Return (Some (if String.eqb filename tag1 then unit1 else unit2)).

(** [f()] on line 3 of the first block divides by zero on line 2; no file
    is called [ex.py+10], so [linecache] has no text for either frame. *)
Definition zero_division : raised :=
  Raised (ExcValue ZeroDivisionError (OtherArgs "division by zero"))
    [kernel_entry;
     TbEntry (Frame unit1) 3 None;
     TbEntry (Frame unit1_f) 2 None].

Definition unit1_fails : code -> option raised :=
  fun c => if co_id c =? 101 then Some zero_division else None.

Definition two_blocks : World :=
  world 3 by_tag unit1_fails magician_id sys_exit (one_tick quiet_tick).

(** A block that fails on its own second line, with nothing called. *)
Definition block3 : block_msg :=
  BlockMsg ("a=1" +:+ Py.nl +:+ "b=1/0") "ex.py" 10 EmptyString.

Definition zero_division_top : raised :=
  Raised (ExcValue ZeroDivisionError (OtherArgs "division by zero"))
    [kernel_entry; TbEntry (Frame unit1) 2 None].

Definition one_block : World :=
  world 3 by_tag (fun _ => Some zero_division_top) magician_id sys_exit
    (one_tick quiet_tick).

(** *** A unit that raises [GeneratorExit] *)

Definition console_unit : code := Code 7 "<console>" "<module>".

Definition generator_exit : raised :=
  Raised (ExcValue GeneratorExit (OtherArgs EmptyString))
    [kernel_entry; TbEntry (Frame console_unit) 1 None].

Definition raises_generator_exit : World :=
  world 3 (compiles_to console_unit) (fun _ => Some generator_exit)
    magician_id sys_exit (one_tick quiet_tick).

(** *** A syntax error typed at the debug prompt, on Python 2 *)

Definition python2_rejecting : World :=
  world 2 rejects no_unit magician_id sys_exit (one_tick quiet_tick).

Definition in_debugger : interp :=
  paused (Frame console_unit) "f" (fresh EmptyString None).

(** *** A [TypeError] out of the magician, Tk integrated *)

Definition type_error : raised := new_exc TypeError "expected str".

Definition magician_type_error : World :=
  world 3 never_complete no_unit (fun _ => Raise type_error) sys_exit
    (one_tick quiet_tick).

(** *** Shutdown during which [guiApp.quit()] itself fails *)

Definition quit_failure : raised := new_exc RuntimeError "application has been destroyed".

Definition failing_quit : World :=
  world 3 never_complete no_unit magician_id (Raise quit_failure)
    (one_tick closed_tick).

(** *** An invalid block while IPython is loaded *)

Definition rejecting : World :=
  world 3 rejects no_unit magician_id sys_exit (one_tick quiet_tick).

Definition bad_block : block_msg :=
  BlockMsg "x = = 1" "ex.py" 0 EmptyString.

(** *** An empty start-up script *)

Definition empty_script : World :=
  {| PYTHON_VERSION := 3;
     _compile := never_complete;
     exec_unit := no_unit;
     run_cell := fun _ n => (Return tt, n + 1);
     convert_command := magician_id;
     format_exception_only := exception_only;
     os_path_split_tail := fun fname => fname;
     read_script := fun _ => Some EmptyString;
     debugger_stopinteraction := Return tt;
     guiApp_quit := sys_exit;
     guiApp_run := one_tick quiet_tick |}.

(** *** A loop that ends as soon as the transport is closed *)

Definition closing : World :=
  world 3 never_complete no_unit magician_id sys_exit (one_tick closed_tick).

End Scenario.

(** ** Vocabulary of the proofs *)

(** Every character of [s] satisfies [p]. *)
Fixpoint all_chars (p : ascii -> bool) (s : string) : bool :=
  match s with
  | EmptyString => true
  | String c s' => p c && all_chars p s'
  end.

(** Neither whitespace nor a plus sign. *)
Definition plain (c : ascii) : bool :=
  negb (Py.is_space c) && negb (Ascii.eqb c "+").

(** The computation [m] leaves the observation [f] of the interpreter as
    it found it, however it ends. *)
Definition keeps {A B} (f : interp -> B) (m : M A) : Prop :=
  forall s, f (snd (m s)) = f s.

(** The interpreter without its reports: the [sys.last_*] globals and the
    trace are blanked, every attribute is kept. *)
Definition silent (s : interp) : interp :=
  let 'Interp a b c d e f g h i j k _ _ _ _ := s in
  Interp a b c d e f g h i j k None None None [].

(** The interpreter without its trace. *)
Definition untraced (s : interp) : interp :=
  let 'Interp a b c d e f g h i j k l m n _ := s in
  Interp a b c d e f g h i j k l m n [].

(** What the kernel wrote with [self.write], oldest first. *)
Definition stderr_text (s : interp) : list string :=
  omap (fun ev => match ev with Stderr text => Some text | _ => None end)
    (events s).

(** The exception [run] raises when nothing else decides: [SystemExit()]. *)
Definition fresh_exit : exc_value := ExcValue SystemExit (OtherArgs EmptyString).

(** The file name [runlargecode] compiles a block under. *)
Definition block_tag (fname : string) (lineno : Z) : string :=
  if lineno =? 0 then fname else origin_tag fname lineno.

(** The line [showtraceback] writes when formatting itself fails. *)
Definition apology : string :=
  "An error occured, but could not write traceback." +:+ Py.nl.

(** The interpreter after [self.write] was called on each text in turn. *)
Definition written (texts : list string) (s : interp) : interp :=
  fold_left (fun s' text => emit (Stderr text) s') texts s.

(** The lines [showtraceback] writes for an exception triple whose
    traceback still has frames after [frames.pop(0)]. *)
Definition traceback_lines (w : World) (coll : ExecutedSourceCollection.t)
  (type : option exc_class) (value : option exc_value) (tb : traceback)
  : list string :=
  let strList :=
    format_list (rewrite_tblist coll (tl (map tb_frame tb)) 0 (extract_tb tb)) in
  match strList with
  | [] => strList
  | _ => ("Traceback (most recent call last):" +:+ Py.nl) :: strList
  end ++ format_exception_only w type value.

(** The interpreter with an exception recorded in the [sys.last_*]
    globals. *)
Definition recorded (r : raised) (tb : traceback) (s : interp) : interp :=
  set_last_traceback (Some tb)
    (set_last_value (Some (r_value r)) (set_last_type (Some (r_class r)) s)).

(** Where a traceback entry points: file name, line number, function. *)
Definition place (t : tbinfo) : string * Z * string :=
  let '(f, l, name, _) := t in (f, l, name).

(** The same, with the file name and line number corrected. *)
Definition corrected_place (t : tbinfo) : string * Z * string :=
  let '(f, l, name, _) := t in
  (fst (correctfilenameandlineno f l), snd (correctfilenameandlineno f l), name).

(** The text [runfile] compiles for a script, [None] when the script is
    empty: line ends folded to [\n], a final newline ensured. *)
Definition script_source (source : string) : option string :=
  let source :=
    Py.replace (String Py.CR EmptyString) Py.nl (Py.replace CRLF Py.nl source) in
  match Py.index (list_ascii_of_string source) (-1) with
  | None => None
  | Some last =>
      Some (if Ascii.eqb last Py.LF then source else source +:+ Py.nl)
  end.

(** The last character of a string. *)
Fixpoint last_char (s : string) : option ascii :=
  match s with
  | EmptyString => None
  | String c EmptyString => Some c
  | String _ s' => last_char s'
  end.

(** What of a prompt shows on a terminal: the text without its ANSI
    sequences, each running from ESC to the next [m]. *)
Fixpoint visible_from (in_sequence : bool) (s : string) : string :=
  match s with
  | EmptyString => EmptyString
  | String c s' =>
      if in_sequence then visible_from (negb (Ascii.eqb c "m")) s'
      else if Ascii.eqb c (ascii_of_nat 27) then visible_from true s'
      else String c (visible_from false s')
  end.

Definition visible (s : string) : string := visible_from false s.

(** The body of the loop [for line3 in line2.split('\n')] of
    [_process_commands]. *)
Definition push_and_note (w : World) (line3 : string) : M unit :=
  m <- pushline w line3 ;; modify (set_more m).

(** A decimal digit or a minus sign: what ["%i"] produces. *)
Definition numeric (c : ascii) : bool := Py.is_digit c || Ascii.eqb c "-".

(** The interpreter once a tick has sent the pending prompt, if any, and
    the status. *)
Definition announced (s : interp) : interp :=
  let s1 :=
    if newPrompt s
    then emit (Prompt (if more s then PS2 s else PS1 s)) (set_newPrompt false s)
    else s in
  emit (Status (if in_debug s then "Debug"
                else if more s then "More" else "Ready")) s1.

(** No start-up script is waiting to be run. *)
Definition no_script (s : interp) : bool :=
  match _scriptToRunOnStartup s with
  | Some (String _ _) => false
  | _ => true
  end.

(** Every part but the last one is free of newlines. *)
Fixpoint heads_clean (parts : list string) : bool :=
  match parts with
  | [] => true
  | [_] => true
  | p :: ps => (Py.count Py.LF p =? 0) && heads_clean ps
  end.

(** The transport is gone: [sys.stdin.closed or not connection_count]. *)
Definition transport_closed (t : tick) : bool :=
  stdin_closed t || (connection_count t =? 0).

(** * Properties *)

(** ** Decimal formatting and [int()] are inverse *)

Module PyFacts.

Lemma digit_cases (d : Z) :
  0 <= d < 10 ->
  d = 0 \/ d = 1 \/ d = 2 \/ d = 3 \/ d = 4 \/ d = 5 \/ d = 6 \/ d = 7
  \/ d = 8 \/ d = 9.
Proof. lia. Qed.

Ltac each_digit d H :=
  destruct (digit_cases d H) as [->|[->|[->|[->|[->|[->|[->|[->|[->| ->]]]]]]]]].

Lemma is_digit_digit_char (d : Z) :
  0 <= d < 10 -> Py.is_digit (Py.digit_char d) = true.
Proof. intros H. each_digit d H; reflexivity. Qed.

Lemma digit_val_digit_char (d : Z) :
  0 <= d < 10 -> Py.digit_val (Py.digit_char d) = d.
Proof. intros H. each_digit d H; reflexivity. Qed.

Lemma plain_digit_char (d : Z) :
  0 <= d < 10 -> plain (Py.digit_char d) = true.
Proof. intros H. each_digit d H; reflexivity. Qed.

Lemma digit_char_not_sign (d : Z) :
  0 <= d < 10 ->
  Ascii.eqb (Py.digit_char d) "+" = false
  /\ Ascii.eqb (Py.digit_char d) "-" = false.
Proof. intros H. each_digit d H; split; reflexivity. Qed.

Lemma mod10_range (n : Z) : 0 <= n mod 10 < 10.
Proof. apply Z.mod_pos_bound. lia. Qed.

(** Reading back the digits written in front of [rest]. *)
Lemma int_digits_dec_digits (f : nat) :
  forall (n : Z) (rest : string) (prev : bool),
    0 <= n < 10 ^ Z.of_nat (S f) ->
    Py.int_digits (Py.dec_digits (S f) n rest) 0 prev
    = Py.int_digits rest n true.
Proof.
  assert (Hsmall : forall n rest prev, 0 <= n < 10 ->
    Py.int_digits (String (Py.digit_char (n mod 10)) rest) 0 prev
    = Py.int_digits rest n true).
  { intros n rest prev Hn. cbn [Py.int_digits]. rewrite Z.mod_small by lia.
    rewrite is_digit_digit_char, digit_val_digit_char by lia.
    f_equal. }
  induction f as [|f IH]; intros n rest prev Hn.
  - change (10 ^ Z.of_nat 1) with 10 in Hn.
    cbn [Py.dec_digits]. destruct (n <? 10); apply Hsmall, Hn.
  - change (Py.dec_digits (S (S f)) n rest)
      with (let acc' := String (Py.digit_char (n mod 10)) rest in
            if n <? 10 then acc' else Py.dec_digits (S f) (n / 10) acc').
    cbv zeta. destruct (n <? 10) eqn:Hlt.
    + apply Z.ltb_lt in Hlt. apply Hsmall. lia.
    + apply Z.ltb_ge in Hlt. rewrite IH.
      * cbn [Py.int_digits].
        rewrite is_digit_digit_char, digit_val_digit_char
          by apply mod10_range.
        f_equal. pose proof (Z.div_mod n 10). lia.
      * rewrite Nat2Z.inj_succ, Z.pow_succ_r in Hn by lia.
        split; [apply Z.div_pos; lia | apply Z.div_lt_upper_bound; lia].
Qed.

Lemma all_plain_dec_digits (f : nat) :
  forall (n : Z) (rest : string),
    all_chars plain rest = true ->
    all_chars plain (Py.dec_digits f n rest) = true.
Proof.
  induction f as [|f IH]; intros n rest Hrest; [exact Hrest|].
  cbn [Py.dec_digits].
  assert (Hacc : all_chars plain (String (Py.digit_char (n mod 10)) rest) = true).
  { cbn [all_chars]. rewrite plain_digit_char by apply mod10_range.
    exact Hrest. }
  destruct (n <? 10); [exact Hacc | apply IH, Hacc].
Qed.

(** [dec] never yields the empty string, and starts with a digit. *)
Lemma dec_digits_head (f : nat) :
  forall (n : Z) (rest : string),
    exists d r, 0 <= d < 10 /\
                Py.dec_digits (S f) n rest = String (Py.digit_char d) r.
Proof.
  induction f as [|f IH]; intros n rest.
  - exists (n mod 10), rest. split; [apply mod10_range|].
    cbn [Py.dec_digits]. destruct (n <? 10); reflexivity.
  - change (Py.dec_digits (S (S f)) n rest)
      with (let acc' := String (Py.digit_char (n mod 10)) rest in
            if n <? 10 then acc' else Py.dec_digits (S f) (n / 10) acc').
    cbv zeta. destruct (n <? 10).
    + exists (n mod 10), rest. split; [apply mod10_range | reflexivity].
    + apply IH.
Qed.

Lemma fuel_enough (n : Z) :
  0 <= n -> n < 10 ^ Z.of_nat (S (Z.to_nat (Z.log2 n))).
Proof.
  intros Hn. rewrite Nat2Z.inj_succ, Z2Nat.id by apply Z.log2_nonneg.
  destruct (Z.eq_dec n 0) as [->|Hne]; [reflexivity|].
  pose proof (Z.log2_spec n ltac:(lia)) as [_ Hup].
  eapply Z.lt_le_trans; [exact Hup|].
  apply Z.pow_le_mono_l. pose proof (Z.log2_nonneg n). lia.
Qed.

Lemma int_digits_dec (n : Z) (prev : bool) :
  0 <= n -> Py.int_digits (Py.dec n) 0 prev = Some n.
Proof.
  intros Hn. unfold Py.dec.
  rewrite int_digits_dec_digits by (split; [lia | apply fuel_enough; lia]).
  reflexivity.
Qed.

Lemma lstrip_plain (s : string) : all_chars plain s = true -> Py.lstrip s = s.
Proof.
  destruct s as [|c s]; [reflexivity|]. cbn [all_chars Py.lstrip].
  unfold plain. destruct (Py.is_space c); [discriminate | reflexivity].
Qed.

Lemma rstrip_plain (s : string) : all_chars plain s = true -> Py.rstrip s = s.
Proof.
  induction s as [|c s IH]; [reflexivity|]. cbn [all_chars Py.rstrip].
  intros [Hc Hs]%andb_true_iff. rewrite (IH Hs).
  unfold plain in Hc. destruct (Py.is_space c); [discriminate|].
  destruct s; reflexivity.
Qed.

Lemma strip_plain (s : string) : all_chars plain s = true -> Py.strip s = s.
Proof.
  intros H. unfold Py.strip. rewrite (lstrip_plain s H). apply rstrip_plain, H.
Qed.

Lemma all_plain_dec (n : Z) : all_chars plain (Py.dec n) = true.
Proof. apply all_plain_dec_digits. reflexivity. Qed.

(** [int("%i" % n) == n] for every integer [n]. *)
Lemma int_fmt_i (n : Z) : Py.int (Py.fmt_i n) = Some n.
Proof.
  unfold Py.fmt_i, Py.int. destruct (n <? 0) eqn:Hneg.
  - apply Z.ltb_lt in Hneg.
    rewrite strip_plain
      by (cbn [all_chars]; rewrite all_plain_dec; reflexivity).
    change (Ascii.eqb "-" "+") with false.
    change (Ascii.eqb "-" "-") with true. cbv iota.
    rewrite int_digits_dec by lia. cbn. f_equal. lia.
  - apply Z.ltb_ge in Hneg.
    rewrite strip_plain by apply all_plain_dec.
    destruct (dec_digits_head (Z.to_nat (Z.log2 n)) n EmptyString)
      as (d & r & Hd & Heq).
    pose proof (int_digits_dec n false Hneg) as Hint.
    unfold Py.dec in *. rewrite Heq in *.
    destruct (digit_char_not_sign d Hd) as [-> ->]. exact Hint.
Qed.

Lemma append_nil (s : string) : EmptyString +:+ s = s.
Proof. reflexivity. Qed.

Lemma append_cons (c : ascii) (a b : string) :
  String c a +:+ b = String c (a +:+ b).
Proof. reflexivity. Qed.

Lemma len_cons (c : ascii) (s : string) : Py.len (String c s) = 1 + Py.len s.
Proof. unfold Py.len. cbn [String.length]. lia. Qed.

Lemma len_nonneg (s : string) : 0 <= Py.len s.
Proof. unfold Py.len. lia. Qed.

Lemma find_from_absent_app (ch : ascii) (s rest : string) :
  forall i, Py.find_from ch s i = -1 -> 0 <= i ->
            Py.find_from ch (s +:+ String ch rest) i = i + Py.len s.
Proof.
  induction s as [|c s IH]; intros i Hfind Hi.
  - rewrite append_nil. cbn [Py.find_from]. rewrite Ascii.eqb_refl.
    change (Py.len EmptyString) with 0. lia.
  - rewrite append_cons, len_cons. cbn [Py.find_from] in Hfind |- *.
    destruct (Ascii.eqb c ch); [lia|].
    rewrite IH by (assumption || lia). lia.
Qed.

Lemma drop_app (s rest : string) (c : ascii) :
  Py.drop (S (String.length s)) (s +:+ String c rest) = rest.
Proof. induction s as [|a s IH]; [reflexivity | exact IH]. Qed.

Lemma take_app (s rest : string) :
  Py.take (String.length s) (s +:+ rest) = s.
Proof.
  induction s as [|a s IH]; [destruct rest; reflexivity|].
  rewrite append_cons. cbn [String.length Py.take]. f_equal. exact IH.
Qed.

Lemma length_take (n : nat) (s : string) :
  (String.length (Py.take n s) <= n)%nat.
Proof.
  revert s. induction n as [|n IH]; intros [|c s]; cbn; try lia.
  specialize (IH s). lia.
Qed.

Lemma length_append (a b : string) :
  String.length (a +:+ b) = (String.length a + String.length b)%nat.
Proof.
  induction a as [|c a IH]; [reflexivity|].
  rewrite append_cons. cbn [String.length]. now rewrite IH.
Qed.

(** The first occurrence, when there is one, lies inside the string. *)
Lemma find_from_upper (ch : ascii) (s : string) :
  forall i, 0 <= i -> Py.find_from ch s i < i + Py.len s \/ s = EmptyString.
Proof.
  induction s as [|c s IH]; intros i Hi; [right; reflexivity|].
  left. rewrite len_cons. cbn [Py.find_from].
  destruct (Ascii.eqb c ch); [pose proof (len_nonneg s); lia|].
  destruct (IH (i + 1) ltac:(lia)) as [H| ->]; [lia|].
  change (Py.len EmptyString) with 0. cbn [Py.find_from]. lia.
Qed.

(** Appending text does not move the first occurrence. *)
Lemma find_from_present_app (ch : ascii) (s rest : string) :
  forall i, Py.find_from ch s i <> -1 ->
            Py.find_from ch (s +:+ rest) i = Py.find_from ch s i.
Proof.
  induction s as [|c s IH]; intros i Hfind; [cbn in Hfind; lia|].
  rewrite append_cons. cbn [Py.find_from] in Hfind |- *.
  destruct (Ascii.eqb c ch); [reflexivity|].
  apply IH; assumption.
Qed.

End PyFacts.

(** ** Origin tags: [runlargecode] writes them, [correctfilenameandlineno]
    reads them *)

Lemma origin_tag_cons (fname : string) (n : Z) :
  origin_tag fname n = fname +:+ String "+" (Py.fmt_i n).
Proof. reflexivity. Qed.

(** A non-empty file name without ['+'] and its offset are recovered from
    the tag, whatever the offset. *)
Lemma origin_round_trip (fname : string) (n l : Z) :
  fname <> EmptyString -> Py.find "+" fname = -1 ->
  correctfilenameandlineno (origin_tag fname n) l = (fname, l + n).
Proof.
  intros Hne Habsent. unfold correctfilenameandlineno, Py.find.
  rewrite origin_tag_cons.
  rewrite PyFacts.find_from_absent_app by (assumption || lia).
  assert (Hlen : 0 < Py.len fname).
  { destruct fname; [congruence|]. rewrite PyFacts.len_cons.
    pose proof (PyFacts.len_nonneg fname). lia. }
  destruct (0 <? 0 + Py.len fname) eqn:Hpos; [|apply Z.ltb_ge in Hpos; lia].
  unfold Py.slice_from, Py.slice_to, Py.len.
  replace (Z.to_nat (0 + Z.of_nat (String.length fname) + 1))
    with (S (String.length fname)) by lia.
  replace (Z.to_nat (0 + Z.of_nat (String.length fname)))
    with (String.length fname) by lia.
  rewrite PyFacts.drop_app, PyFacts.int_fmt_i, PyFacts.take_app.
  reflexivity.
Qed.

(** A file name with a ['+'] past its first character is never recovered:
    the rewriter cuts at the first ['+'] or leaves the whole tag. *)
Lemma origin_tag_plus_in_name (fname : string) (n l : Z) :
  0 < Py.find "+" fname ->
  fst (correctfilenameandlineno (origin_tag fname n) l) <> fname.
Proof.
  intros Hpos. unfold correctfilenameandlineno, Py.find in *.
  rewrite origin_tag_cons.
  rewrite PyFacts.find_from_present_app by lia.
  set (j := Py.find_from "+" fname 0) in *.
  assert (Hj : j < Py.len fname).
  { destruct (PyFacts.find_from_upper "+" fname 0 ltac:(lia)) as [H| ->];
      [fold j in H; lia | subst j; cbn in Hpos; lia]. }
  destruct (0 <? j) eqn:Hlt; [|apply Z.ltb_ge in Hlt; lia].
  destruct (Py.int _); cbn [fst]; intros Heq;
    apply (f_equal String.length) in Heq.
  - unfold Py.slice_to in Heq.
    pose proof (PyFacts.length_take (Z.to_nat j)
                  (fname +:+ String "+" (Py.fmt_i n))).
    unfold Py.len in Hj. lia.
  - rewrite PyFacts.length_append in Heq. cbn [String.length] in Heq. lia.
Qed.

(** C1 (the code differs from the claim): the tag [runlargecode] builds for
    the file name [a+b.py] and offset [7] is [a+b.py+7]; for a frame at
    line [22], [correctfilenameandlineno] cuts at the first ['+'], fails to
    read [b.py+7] as a number and returns the tag and the line unchanged,
    not [("a+b.py", 29)]. *)
Theorem correctfilenameandlineno_cuts_at_first_plus :
  origin_tag "a+b.py" 7 = "a+b.py+7"
  /\ Py.find "+" "a+b.py+7" = 1
  /\ Py.int (Py.slice_from 2 "a+b.py+7") = None
  /\ correctfilenameandlineno (origin_tag "a+b.py" 7) 22 = ("a+b.py+7", 22)
  /\ correctfilenameandlineno (origin_tag "a+b.py" 7) 22 <> ("a+b.py", 22 + 7).
Proof. repeat split; try reflexivity. vm_compute. discriminate. Qed.

(** ** The source registry *)

Lemma getId_is_None (c : code) : ExecutedSourceCollection._getId c = None.
Proof. reflexivity. Qed.

Lemma stored_snoc (calls : list (code * string)) (c : code) (src : string) :
  ExecutedSourceCollection.stored (calls ++ [(c, src)])
  = <[None := src]> (ExecutedSourceCollection.stored calls).
Proof.
  unfold ExecutedSourceCollection.stored. rewrite fold_left_app. reflexivity.
Qed.

(** Only the key [None] is ever bound. *)
Lemma stored_keys (calls : list (code * string)) (k : option string) :
  is_Some (ExecutedSourceCollection.stored calls !! k) -> k = None.
Proof.
  induction calls as [|[c' src] calls IH] using rev_ind.
  - intros [v Hv]. cbn in Hv. rewrite lookup_empty in Hv. discriminate.
  - rewrite stored_snoc. intros Hk. destruct k as [id_|]; [|reflexivity].
    rewrite lookup_insert_ne in Hk by discriminate. exact (IH Hk).
Qed.

(** Every lookup finds the source stored last. *)
Lemma getSource_stored (calls : list (code * string)) (c : code) :
  ExecutedSourceCollection.getSource (ExecutedSourceCollection.stored calls) c
  = default EmptyString (last (snd <$> calls)).
Proof.
  unfold ExecutedSourceCollection.getSource. rewrite getId_is_None.
  destruct calls as [|[c' src] calls _] using rev_ind; [reflexivity|].
  rewrite stored_snoc, lookup_insert_eq, fmap_app.
  cbn [fmap list_fmap snd]. rewrite last_snoc. reflexivity.
Qed.

(** C3: [_getId] returns [None] for every code object, so every
    [storeSource] writes the one key [None]; after any sequence of
    [storeSource] calls [getSource c] is, for every code object [c], the
    source stored last, and the empty string when nothing was stored. *)
Theorem getSource_is_latest_stored (calls : list (code * string)) (c : code) :
  ExecutedSourceCollection._getId c = None
  /\ (forall k : option string,
        is_Some (ExecutedSourceCollection.stored calls !! k) -> k = None)
  /\ ExecutedSourceCollection.getSource
       (ExecutedSourceCollection.stored calls) c
     = default EmptyString (last (snd <$> calls)).
Proof.
  split; [reflexivity|]. split; [apply stored_keys | apply getSource_stored].
Qed.

(** ** The encoding-cookie rewrite *)

Lemma append_nil_r (s : string) : s +:+ EmptyString = s.
Proof.
  induction s as [|c s IH]; [reflexivity|].
  rewrite PyFacts.append_cons. now rewrite IH.
Qed.

Lemma append_snoc (cur : string) (c : ascii) (s : string) :
  (cur +:+ String c EmptyString) +:+ s = cur +:+ String c s.
Proof.
  induction cur as [|a cur IH]; [reflexivity|].
  rewrite !PyFacts.append_cons. now rewrite IH.
Qed.

(** Without a separator [split] returns the string as its only part. *)
Lemma split_from_single (sep : ascii) (s : string) :
  forall (maxsplit : nat) (cur : string) (i : Z),
    Py.find_from sep s i = -1 -> 0 <= i ->
    Py.split_from sep maxsplit s cur = [cur +:+ s].
Proof.
  induction s as [|c s IH]; intros maxsplit cur i Hfind Hi.
  - cbn. now rewrite append_nil_r.
  - cbn [Py.find_from] in Hfind. cbn [Py.split_from].
    destruct maxsplit as [|k]; [reflexivity|].
    destruct (Ascii.eqb c sep); [lia|].
    rewrite (IH (S k) _ (i + 1)) by (assumption || lia).
    now rewrite append_snoc.
Qed.

(** A source without a newline reaches the compiler as it is, cookie or
    not: its only part is the last part, which the loop skips. *)
Lemma mangled_source_single_line (source : string) :
  Py.find Py.LF source = -1 -> mangled_source source = source.
Proof.
  intros Hfind. unfold mangled_source, Py.split_max.
  rewrite (split_from_single _ _ _ _ 0 Hfind) by lia. reflexivity.
Qed.

(** With a newline after it, the cookie line is rewritten. *)
Lemma mangled_source_cookie_line :
  mangled_source (Scenario.cookie +:+ Py.nl)
  = "# -*- coding is utf-8 -*-" +:+ Py.nl.
Proof. reflexivity. Qed.

(** C4 (the code differs from the claim): the one-line source
    [# -*- coding: utf-8 -*-] without a final newline is handed to the
    command compiler unchanged, cookie included, although it has the
    cookie on its first physical line; so is a two-line source whose
    second and last line is the cookie; the same line followed by a
    newline is rewritten to [coding is]. *)
Theorem compilecode_keeps_cookie_of_single_line
  (w : World) (filename mode : string) :
  has_coding Scenario.cookie = true
  /\ compilecode w Scenario.cookie filename mode
     = _compile w "# -*- coding: utf-8 -*-" filename mode
  /\ compilecode w ("if 1:" +:+ Py.nl +:+ Scenario.cookie) filename mode
     = _compile w ("if 1:" +:+ Py.nl +:+ "# -*- coding: utf-8 -*-")
         filename mode
  /\ compilecode w (Scenario.cookie +:+ Py.nl) filename mode
     = _compile w ("# -*- coding is utf-8 -*-" +:+ Py.nl) filename mode.
Proof. repeat split. Qed.

(** ** What a computation leaves alone *)

Section Frames.

Context {B : Type} (f : interp -> B).

Lemma keeps_ret {A} (a : A) : keeps f (ret a).
Proof. intros s. reflexivity. Qed.

Lemma keeps_raise {A} (r : raised) : keeps f (@raise A r).
Proof. intros s. reflexivity. Qed.

Lemma keeps_get {A} (g : interp -> A) : keeps f (get g).
Proof. intros s. reflexivity. Qed.

Lemma keeps_self : keeps f self.
Proof. intros s. reflexivity. Qed.

Lemma keeps_modify (g : interp -> interp) :
  (forall s, f (g s) = f s) -> keeps f (modify g).
Proof. intros H s. apply H. Qed.

Lemma keeps_bind {A C} (m : M A) (k : A -> M C) :
  keeps f m -> (forall a, keeps f (k a)) -> keeps f (bind m k).
Proof.
  intros Hm Hk s. unfold bind. specialize (Hm s).
  destruct (m s) as [[a|r] s1]; cbn [snd] in *; [|exact Hm].
  rewrite (Hk a s1). exact Hm.
Qed.

Lemma keeps_for_each {A} (xs : list A) (body : A -> M unit) :
  (forall x, keeps f (body x)) -> keeps f (for_each xs body).
Proof.
  intros Hbody. induction xs as [|x xs IH]; cbn [for_each].
  - apply keeps_ret.
  - apply keeps_bind; [apply Hbody | intros _; exact IH].
Qed.

Lemma keeps_first_clause {A}
  (clauses : list ((raised -> bool) * (raised -> M A))) (r : raised) :
  Forall (fun cl => forall r', keeps f (snd cl r')) clauses ->
  keeps f (first_clause clauses r).
Proof.
  induction 1 as [|[accepts h] rest Hh _ IH]; cbn [first_clause].
  - apply keeps_raise.
  - destruct (accepts r); [apply Hh | exact IH].
Qed.

Lemma keeps_try_clauses {A} (m : M A)
  (clauses : list ((raised -> bool) * (raised -> M A))) :
  keeps f m ->
  Forall (fun cl => forall r', keeps f (snd cl r')) clauses ->
  keeps f (try_clauses m clauses).
Proof.
  intros Hm Hcl s. unfold try_clauses. specialize (Hm s).
  destruct (m s) as [[a|r] s1]; cbn [snd] in *; [exact Hm|].
  rewrite (keeps_first_clause clauses r Hcl s1). exact Hm.
Qed.

End Frames.

Create HintDb frames.

Ltac frame :=
  repeat first
    [ solve [auto with frames]
    | apply keeps_ret | apply keeps_raise | apply keeps_get | apply keeps_self
    | apply keeps_bind; [|intros ?]
    | apply keeps_for_each; intros ?
    | apply keeps_modify; intros []; reflexivity
    | apply keeps_try_clauses; [|repeat constructor; cbn [snd]; intros ?]
    | match goal with
      | |- keeps _ (match ?x with _ => _ end) => destruct x
      end ].

Lemma write_keeps_silent (text : string) : keeps silent (write text).
Proof. unfold write. frame. Qed.

Lemma showsyntaxerror_keeps_silent (w : World) (e : option raised)
  (filename : string) : keeps silent (showsyntaxerror w e filename).
Proof. unfold showsyntaxerror, write. frame. Qed.

Lemma showtraceback_keeps_silent (w : World) (cur : raised) (b : bool) :
  keeps silent (showtraceback w cur b).
Proof. unfold showtraceback, write, pop0, tb_next. frame. Qed.

#[local] Hint Resolve write_keeps_silent showsyntaxerror_keeps_silent
  showtraceback_keeps_silent : frames.

Lemma execcode_keeps_silent (w : World) (c : code) :
  keeps silent (execcode w c).
Proof.
  unfold execcode, dbstop_handler. frame.
  intros s. destruct (exec_unit w c); destruct s; reflexivity.
Qed.

#[local] Hint Resolve execcode_keeps_silent : frames.

Lemma buffer_silent (s : interp) : _buffer (silent s) = _buffer s.
Proof. destruct s; reflexivity. Qed.

Lemma ipython_silent (s : interp) : _ipython (silent s) = _ipython s.
Proof. destruct s; reflexivity. Qed.

Lemma keeps_silent_buffer {A} (m : M A) : keeps silent m -> keeps _buffer m.
Proof. intros H s. rewrite <- buffer_silent, H. apply buffer_silent. Qed.

Lemma keeps_silent_ipython {A} (m : M A) : keeps silent m -> keeps _ipython m.
Proof. intros H s. rewrite <- ipython_silent, H. apply ipython_silent. Qed.

(** ** The line buffer *)

Lemma execcode_keeps_buffer (w : World) (c : code) : keeps _buffer (execcode w c).
Proof. apply keeps_silent_buffer, execcode_keeps_silent. Qed.

Lemma showsyntaxerror_keeps_buffer (w : World) (e : option raised)
  (filename : string) : keeps _buffer (showsyntaxerror w e filename).
Proof. apply keeps_silent_buffer, showsyntaxerror_keeps_silent. Qed.

#[local] Hint Resolve execcode_keeps_buffer showsyntaxerror_keeps_buffer
  : frames.

Lemma runlines_keeps_buffer (w : World) (source filename : string) :
  keeps _buffer (_runlines w source filename).
Proof.
  unfold _runlines. frame.
  all: intros s; destruct (_ipython s) as [n|]; [|reflexivity];
    destruct (run_cell w source n); destruct s; reflexivity.
Qed.

(** What [_runlines] returns, by the outcome of the compiler. *)
Ltac case_call :=
  match goal with
  | |- context [execcode ?w ?c ?s] =>
      destruct (execcode w c s) as [[[]|?] ?]
  | |- context [showsyntaxerror ?w ?e ?f ?s] =>
      destruct (showsyntaxerror w e f s) as [[[]|?] ?]
  | |- context [run_cell ?w ?a ?b] =>
      destruct (run_cell w a b) as [[[]|?] ?]
  end.

Lemma runlines_result (w : World) (source filename : string) (s : interp) :
  let o := compilecode w source filename "single" in
  let res := fst (_runlines w source filename s) in
  (incomplete o = true -> _runlines w source filename s = (Return true, s))
  /\ (incomplete o = false -> res <> Return true)
  /\ (res = Return false -> complete o || invalid o = true).
Proof.
  cbv zeta.
  destruct s as [fn buf mo np dbf dbn ip coll gui ex scr lt lv ltb tr].
  unfold _runlines, bind, get, self, ret, raise, modify, in_debug.
  cbn [_ipython _dbFrames emit].
  destruct (compilecode w source filename "single") as [[c|]|r];
    cbn [incomplete complete invalid orb].
  - (* a code object *)
    split; [discriminate|]. split; [intros _|reflexivity].
    destruct ip as [n|]; [destruct dbf|]; cbn; case_call; discriminate.
  - (* None *)
    split; [intros _|]; [destruct ip as [n|]; [destruct dbf|]; reflexivity|].
    split; [discriminate|].
    destruct ip as [n|]; [destruct dbf|]; discriminate.
  - (* an exception *)
    split; [discriminate|]. unfold is_syntax_class.
    destruct (isinstance OverflowError r || isinstance SyntaxError r
              || isinstance ValueError r) eqn:Hsyn.
    + split; [intros _|reflexivity].
      destruct ip as [n|]; [destruct dbf|]; cbn; case_call; discriminate.
    + split; [intros _|]; destruct ip as [n|]; try destruct dbf; discriminate.
Qed.

Lemma pushline_unfold (w : World) (line : string) (s : interp) :
  let buffer := _buffer s ++ [line] in
  pushline w line s
  = match _runlines w (Py.join Py.nl buffer) (_filename s)
            (set_buffer [] (set_buffer buffer s)) with
    | (Return true, s3) => (Return true, set_buffer buffer s3)
    | (Return false, s3) => (Return false, s3)
    | (Raise r, s3) => (Raise r, s3)
    end.
Proof.
  cbv zeta. unfold pushline, _resetbuffer, bind, get, ret, modify.
  destruct s as [fn buf mo np dbf dbn ip coll gui ex scr lt lv ltb tr].
  cbn [_buffer _filename set_buffer].
  destruct (_runlines w _ fn _) as [[[]|r] s3]; reflexivity.
Qed.

Lemma buffer_set_buffer (v : list string) (s : interp) :
  _buffer (set_buffer v s) = v.
Proof. destruct s; reflexivity. Qed.

Lemma snoc_not_nil {A} (l : list A) (x : A) : l ++ [x] <> [].
Proof. destruct l; discriminate. Qed.

(** The first clause of [process_commands]. *)
Lemma process_commands_KeyboardInterrupt (w : World) (t : tick)
  (s s1 : interp) (r : raised) :
  _process_commands w t s = (Raise r, s1) ->
  isinstance KeyboardInterrupt r = true ->
  process_commands w t s
  = (Return tt,
     set_more false
       (set_buffer []
          (emit (Stderr (Py.nl +:+ "KeyboardInterrupt" +:+ Py.nl)) s1))).
Proof.
  intros Hraise Hki. unfold process_commands, try_clauses.
  rewrite Hraise. cbn [first_clause]. rewrite Hki. reflexivity.
Qed.



(** ** Tracebacks and the stored source *)

(** The registry answers every lookup with the source stored last, so the
    line shown for a frame is taken from that source. *)
Lemma rewrite_entry_uses_latest (calls : list (code * string))
  (frames : list frame) (i : nat) (fr : frame) (info : tbinfo) :
  nth_error frames i = Some fr ->
  rewrite_entry (ExecutedSourceCollection.stored calls) frames i info
  = let '(f, l, name, text) := info in
    let '(fname, lineno) := correctfilenameandlineno f l in
    (fname, lineno, name,
     match default EmptyString (last (snd <$> calls)) with
     | EmptyString => text
     | src => match Py.index (Py.splitlines src) (l - 1) with
              | Some line => Some line
              | None => text
              end
     end).
Proof.
  intros Hfr. destruct info as [[[f l] name] text]. unfold rewrite_entry.
  rewrite Hfr.
  rewrite getSource_stored.
  destruct (correctfilenameandlineno f l).
  destruct (default EmptyString (last (snd <$> calls))); reflexivity.
Qed.

(** After [frames.pop(0)] the last entry of the traceback has no frame
    left: its text is never replaced. *)
Lemma rewrite_entry_without_frame (coll : ExecutedSourceCollection.t)
  (frames : list frame) (i : nat) (f name : string) (l : Z)
  (text : option string) :
  nth_error frames i = None ->
  rewrite_entry coll frames i (f, l, name, text)
  = (fst (correctfilenameandlineno f l), snd (correctfilenameandlineno f l),
     name, text).
Proof.
  intros Hnone. unfold rewrite_entry. rewrite Hnone.
  destruct (correctfilenameandlineno f l). reflexivity.
Qed.

(** C2 (the code differs from the claim).  First part: the block
    [a=1 / b=1/0] of [ex.py] at offset 10 is stored, its second line
    raises, and the only frame of the unit is shown without any source
    line although line 2 of the stored source is [b=1/0].  Second part:
    after a first block whose line 3 is [f()] has failed and a second block
    has been stored, the traceback of the first block shows, for the first
    block's own frame at line 3, the text [z=4], which is line 3 of the
    second block. *)
Theorem traceback_line_is_not_the_stored_line :
  let s := snd (runlargecode Scenario.one_block Scenario.block3
                  (Scenario.fresh EmptyString None)) in
  let s1 := snd (runlargecode Scenario.two_blocks Scenario.block1
                   (Scenario.fresh EmptyString None)) in
  let s2 := snd (runlargecode Scenario.two_blocks Scenario.block2 s1) in
  (Py.index (Py.splitlines (msg_source Scenario.block3 +:+ Py.nl)) (2 - 1)
   = Some "b=1/0"
   /\ stderr_text s
      = [ "Traceback (most recent call last):" +:+ Py.nl;
          format_entry ("ex.py", 12, "<module>", None);
          "ZeroDivisionError: division by zero" +:+ Py.nl ])
  /\ (Py.index (Py.splitlines (msg_source Scenario.block1 +:+ Py.nl)) (3 - 1)
      = Some "f()"
      /\ sys_last_traceback s2
         = Some [TbEntry (Frame Scenario.unit1) 3 None;
                 TbEntry (Frame Scenario.unit1_f) 2 None]
      /\ stderr_text
           (snd (showtraceback Scenario.two_blocks Scenario.zero_division true
                   (untraced s2)))
         = [ "Traceback (most recent call last):" +:+ Py.nl;
             format_entry ("ex.py", 13, "<module>", Some "z=4");
             format_entry ("ex.py", 12, "f", None);
             "ZeroDivisionError: division by zero" +:+ Py.nl ]).
Proof. vm_compute. repeat split. Qed.

(** ** Exception dispatch in [execcode] *)

(** The four ways [execcode] ends, by the class of what the unit raised. *)
Lemma execcode_dispatch (w : World) (c : code) (s : interp) :
  execcode w c s
  = match exec_unit w c with
    | None => (Return tt, emit (Exec c) s)
    | Some r =>
        if isinstance BdbQuit r then dbstop_handler (emit (Exec c) s)
        else if isinstance Exception r || isinstance KeyboardInterrupt r
             then showtraceback w r false (emit (Sleep 200) (emit (Exec c) s))
             else (Raise r, emit (Exec c) s)
    end.
Proof.
  unfold execcode, try_clauses. destruct (exec_unit w c) as [r|]; [|reflexivity].
  cbn [first_clause]. destruct (isinstance BdbQuit r); [reflexivity|].
  destruct (isinstance Exception r); [reflexivity|]. cbn [orb].
  destruct (isinstance KeyboardInterrupt r); reflexivity.
Qed.

(** A [SystemExit] raised by the unit leaves [execcode] uncaught. *)
Lemma execcode_SystemExit (w : World) (c : code) (s : interp) (r : raised) :
  exec_unit w c = Some r -> r_class r = SystemExit ->
  execcode w c s = (Raise r, emit (Exec c) s).
Proof.
  intros Hexec Hcls. rewrite execcode_dispatch, Hexec.
  unfold isinstance. rewrite Hcls. reflexivity.
Qed.

(** C6 (the code differs from the claim): a unit that raises
    [GeneratorExit], which is not a [SystemExit], is not caught by
    [execcode]: the exception leaves the method, no sleep, no traceback, no
    stop handler; [process_commands] and [run] do not catch it either. *)
Theorem execcode_does_not_catch_GeneratorExit :
  let w := Scenario.raises_generator_exit in
  let s := Scenario.fresh EmptyString None in
  isinstance SystemExit Scenario.generator_exit = false
  /\ exec_unit w Scenario.console_unit = Some Scenario.generator_exit
  /\ execcode w Scenario.console_unit s
     = (Raise Scenario.generator_exit, emit (Exec Scenario.console_unit) s)
  /\ fst (process_commands w (Scenario.command_tick "raise GeneratorExit") s)
     = Raise Scenario.generator_exit.
Proof. vm_compute. repeat split. Qed.

(** ** The last-exception globals *)

Lemma sys_last_emit (ev : event) (s : interp) : sys_last (emit ev s) = sys_last s.
Proof. destruct s; reflexivity. Qed.

Lemma write_keeps_sys_last (text : string) : keeps sys_last (write text).
Proof. unfold write. frame. Qed.

Lemma writes_keep_sys_last (texts : list string) :
  keeps sys_last (for_each texts write).
Proof. apply keeps_for_each, write_keeps_sys_last. Qed.

(** In debug mode [showtraceback] leaves the three globals alone, with
    either value of [useLastTraceback]. *)
Lemma showtraceback_in_debug (w : World) (cur : raised) (b : bool) (s : interp) :
  in_debug s = true ->
  sys_last (snd (showtraceback w cur b s)) = sys_last s.
Proof.
  intros Hdbg.
  assert (Hshow : forall (texts : list string) (res : outcome unit) (s' : interp),
             for_each texts write s = (res, s') ->
             sys_last
               (snd (match res with
                     | Return a => (Return a, s')
                     | Raise r =>
                         (if isinstance Exception r
                          then write ("An error occured, but could not write traceback."
                                        +:+ Py.nl)
                          else raise r) s'
                     end)) = sys_last s).
  { intros texts res s' Hrun. pose proof (writes_keep_sys_last texts s) as Hw.
    rewrite Hrun in Hw. cbn [snd] in Hw.
    destruct res as [[]|r]; [exact Hw|].
    destruct (isinstance Exception r); cbn; [|exact Hw].
    rewrite sys_last_emit. exact Hw. }
  destruct b.
  - destruct (map tb_frame (default [] (sys_last_traceback s)))
      as [|fr frs] eqn:Hframes;
      cbv [showtraceback try_clauses bind get self ret tb_next pop0 raise
             modify first_clause]; rewrite Hframes.
    + cbn. apply sys_last_emit.
    + match goal with
      | |- context [for_each ?l write s] =>
          destruct (for_each l write s) as [res s'] eqn:Hrun
      end.
      exact (Hshow _ _ _ Hrun).
  - destruct (r_tb cur) as [|e tb] eqn:Htb;
      cbv [showtraceback try_clauses bind get self ret tb_next pop0 raise
             modify first_clause]; rewrite Htb, ?Hdbg; cbn [negb].
    + cbn. apply sys_last_emit.
    + destruct (map tb_frame tb) as [|fr frs] eqn:Hframes.
      * cbn. apply sys_last_emit.
      * match goal with
        | |- context [for_each ?l write s] =>
            destruct (for_each l write s) as [res s'] eqn:Hrun
        end.
        exact (Hshow _ _ _ Hrun).
Qed.

(** On Python 3 an exception cannot be unpacked, so [showsyntaxerror]
    never reaches the assignment and leaves the three globals alone. *)
Lemma showsyntaxerror_python3 (w : World) (e : option raised)
  (filename : string) (s : interp) :
  3 <= PYTHON_VERSION w ->
  sys_last (snd (showsyntaxerror w e filename s)) = sys_last s.
Proof.
  intros Hver. unfold showsyntaxerror, unpack_syntax.
  destruct (PYTHON_VERSION w <? 3) eqn:Hlt; [apply Z.ltb_lt in Hlt; lia|].
  assert (Hwrites : forall v,
    sys_last (snd (bind (ret v)
                     (fun value' =>
                        for_each (format_exception_only w
                                    (option_map r_class e) value') write) s))
    = sys_last s).
  { intros v. apply (keeps_bind sys_last); [apply keeps_ret|].
    intros a. apply writes_keep_sys_last. }
  destruct filename; [apply Hwrites|].
  destruct (is_SyntaxError (option_map r_class e)); [|apply Hwrites].
  destruct (option_map r_value e); apply Hwrites.
Qed.

(** C7 (the code differs from the claim): on Python 2, with the kernel
    paused in the debugger, a line with a syntax error goes through
    [showsyntaxerror], which stores the rewritten exception in
    [sys.last_value]: the global changes although the debug frame stack is
    not empty. *)
Theorem showsyntaxerror_sets_last_value_in_debug_mode :
  let w := Scenario.python2_rejecting in
  let s := Scenario.in_debugger in
  let s' := snd (pushline w "x =" s) in
  in_debug s = true
  /\ in_debug s' = true
  /\ sys_last_value s = None
  /\ sys_last_value s'
     = Some (ExcValue SyntaxError
               (SyntaxArgs "invalid syntax" "<console>" 1 4 "x ="))
  /\ sys_last s' <> sys_last s.
Proof. vm_compute. repeat split. discriminate. Qed.

(** ** The handlers of the REPL loop *)

(** A [TypeError] out of the inner tick never leaves [process_commands]:
    with wx it is reported like an interrupt, with any other GUI name the
    handler does nothing at all. *)
Lemma process_commands_TypeError (w : World) (t : tick) (s s1 : interp)
  (r : raised) :
  _process_commands w t s = (Raise r, s1) ->
  isinstance KeyboardInterrupt r = false ->
  isinstance TypeError r = true ->
  process_commands w t s
  = if String.eqb (guiName s1) "WX"
    then (Return tt,
          set_more false
            (set_buffer []
               (emit (Stderr (Py.nl +:+ "Keyboard Interrupt" +:+ Py.nl)) s1)))
    else (Return tt, s1).
Proof.
  intros Hraise Hki Hty. unfold process_commands, try_clauses.
  rewrite Hraise. cbn [first_clause]. rewrite Hki, Hty.
  unfold bind, get. destruct (String.eqb (guiName s1) "WX"); reflexivity.
Qed.

(** C8 (the code differs from the claim): with Tk integrated, a
    [TypeError] raised inside the inner tick is caught by
    [process_commands] and dropped: the call returns normally, nothing is
    written and the exception does not propagate. *)
Theorem process_commands_drops_TypeError_without_wx :
  let w := Scenario.magician_type_error in
  let t := Scenario.command_tick "x = 1" in
  let s := Scenario.fresh "TK" None in
  fst (_process_commands w t s) = Raise Scenario.type_error
  /\ process_commands w t s = (Return tt, snd (_process_commands w t s))
  /\ stderr_text (snd (process_commands w t s)) = [].
Proof. vm_compute. repeat split. Qed.

(** ** Leaving [run] *)

Lemma bind_modify {A} (g : interp -> interp) (k : unit -> M A) (s : interp) :
  bind (modify g) k s = k tt (g s).
Proof. reflexivity. Qed.

(** [run] by the way the event loop ends. *)
Lemma run_by_loop (w : World) (s : interp) :
  fst (run w s)
  = match guiApp_run w (process_commands w) (set_exitException None s) with
    | (Return _, s1) =>
        Raise (Raised (default fresh_exit (_exitException s1)) [])
    | (Raise r, s1) =>
        if isinstance SystemExit r
        then Raise (Raised (default (r_value r) (_exitException s1)) [])
        else Raise r
    end.
Proof.
  unfold run. rewrite bind_modify. unfold bind at 1. unfold try_clauses.
  destruct (guiApp_run w (process_commands w) (set_exitException None s))
    as [[[]|r] s1].
  - unfold bind, get, modify, raise. reflexivity.
  - cbn [first_clause]. destruct (isinstance SystemExit r); [|reflexivity].
    unfold bind, get, modify, raise, ret. destruct s1 as [? ? ? ? ? ? ? ? ? [e|]];
      reflexivity.
Qed.

(** An exception of the event loop that is not a [SystemExit] leaves [run]
    as it is, with the interpreter as the loop left it. *)
Lemma run_loop_error (w : World) (s s1 : interp) (r : raised) :
  guiApp_run w (process_commands w) (set_exitException None s) = (Raise r, s1) ->
  isinstance SystemExit r = false ->
  run w s = (Raise r, s1).
Proof.
  intros Hloop Hse. unfold run. rewrite bind_modify. unfold bind at 1.
  unfold try_clauses. rewrite Hloop. cbn [first_clause]. rewrite Hse.
  reflexivity.
Qed.

(** What [run] raises, by the way the event loop ends: [run] always ends
    by raising.  When the event loop returns normally, the stored exit
    intent is raised, or a fresh [SystemExit] when there is none; when the
    loop ends with a [SystemExit], the stored exit intent is raised, or
    that [SystemExit] when there is none.  Only these two ways reach the
    check of the exit intent: [run] has the one clause [except SystemExit],
    so when the loop ends with any other exception, that exception leaves
    [run] unchanged, whether or not an exit intent was stored. *)
Theorem run_exit_precedence (w : World) (s : interp) :
  (exists r, fst (run w s) = Raise r)
  /\ match guiApp_run w (process_commands w) (set_exitException None s) with
     | (Return _, s1) =>
         fst (run w s)
         = Raise (Raised (default fresh_exit (_exitException s1)) [])
     | (Raise r, s1) =>
         if isinstance SystemExit r
         then fst (run w s)
              = Raise (Raised (default (r_value r) (_exitException s1)) [])
         else run w s = (Raise r, s1)
     end.
Proof.
  pose proof (run_by_loop w s) as Hrun.
  pose proof (run_loop_error w s) as Herr.
  destruct (guiApp_run w (process_commands w) (set_exitException None s))
    as [[[]|r] s1].
  - split; [eexists|]; exact Hrun.
  - destruct (isinstance SystemExit r) eqn:Hse.
    + split; [eexists|]; exact Hrun.
    + split; [eexists; exact Hrun | exact (Herr s1 r eq_refl Hse)].
Qed.

(** C9 (the code differs from the claim): the docstring of [run] gives
    the order of preference as the stored exit intent first, then the
    exception with which the event loop was exited, then a new exception.
    Here the transport is closed, the tick raises [SystemExit],
    [process_commands] stores it as the exit intent and calls
    [guiApp.quit()], which fails with a [RuntimeError]; the event loop
    ends with that error and [run] raises it, not the stored exit
    intent. *)
Lemma run_raises_loop_error_despite_exit_intent :
  _exitException
    (snd (guiApp_run Scenario.failing_quit
            (process_commands Scenario.failing_quit)
            (set_exitException None (Scenario.fresh EmptyString None))))
  = Some fresh_exit
  /\ fst (run Scenario.failing_quit (Scenario.fresh EmptyString None))
     = Raise Scenario.quit_failure
  /\ fst (run Scenario.failing_quit (Scenario.fresh EmptyString None))
     <> Raise (Raised fresh_exit []).
Proof. vm_compute. repeat split. discriminate. Qed.

(** ** The execution counter *)

Lemma execcode_keeps_ipython (w : World) (c : code) : keeps _ipython (execcode w c).
Proof. apply keeps_silent_ipython, execcode_keeps_silent. Qed.

Lemma showsyntaxerror_keeps_ipython (w : World) (e : option raised)
  (filename : string) : keeps _ipython (showsyntaxerror w e filename).
Proof. apply keeps_silent_ipython, showsyntaxerror_keeps_silent. Qed.

#[local] Hint Resolve execcode_keeps_ipython showsyntaxerror_keeps_ipython
  : frames.

Lemma store_and_exec_keeps_ipython (w : World) (code_ : option code)
  (source : string) : keeps _ipython (store_and_exec w code_ source).
Proof. unfold store_and_exec, write. frame. Qed.

#[local] Hint Resolve store_and_exec_keeps_ipython : frames.

(** [runlargecode] adds one to the counter of a loaded IPython shell
    before it compiles, and nothing after that touches the counter. *)
Lemma runlargecode_counter (w : World) (msg : block_msg) (s : interp) :
  _ipython (snd (runlargecode w msg s)) = (fun n => n + 1) <$> _ipython s.
Proof.
  unfold runlargecode. rewrite !bind_modify.
  match goal with
  | |- _ipython (snd (?tail ?s1)) = _ =>
      assert (Htail : keeps _ipython tail) by frame;
      rewrite (Htail s1)
  end.
  destruct s as [? ? ? ? ? ? [n|]]; reflexivity.
Qed.

(** The counter after an interactive source went through [_runlines]:
    the kernel leaves it to IPython's [run_cell], which it calls when the
    source is complete or invalid and the kernel is not in debug mode. *)
Lemma runlines_counter (w : World) (source filename : string) (s : interp) :
  _ipython (snd (_runlines w source filename s))
  = match _ipython s with
    | Some n =>
        if (complete (compilecode w source filename "single")
            || invalid (compilecode w source filename "single"))
           && negb (in_debug s)
        then Some (snd (run_cell w source n))
        else Some n
    | None => None
    end.
Proof.
  assert (Hexec := fun c => execcode_keeps_ipython w c s).
  assert (Hshow := fun e => showsyntaxerror_keeps_ipython w e filename s).
  destruct s as [fn buf mo np dbf dbn ip coll gui ex scr lt lv ltb tr].
  unfold _runlines, bind, get, self, ret, raise, modify, in_debug.
  cbn [_ipython _dbFrames emit] in *.
  destruct (compilecode w source filename "single") as [[c|]|r];
    cbn [incomplete complete invalid orb andb].
  - destruct ip as [n|]; [destruct dbf|]; cbn [negb andb].
    + cbn. destruct (run_cell w source n) as [[[]|?] ?]; reflexivity.
    + specialize (Hexec c). destruct (execcode w c _) as [[[]|?] ?]; exact Hexec.
    + specialize (Hexec c). destruct (execcode w c _) as [[[]|?] ?]; exact Hexec.
  - destruct ip as [n|]; [destruct dbf|]; reflexivity.
  - unfold is_syntax_class.
    destruct (isinstance OverflowError r || isinstance SyntaxError r
              || isinstance ValueError r);
      [|destruct ip as [n|]; [destruct dbf|]; reflexivity].
    destruct ip as [n|]; [destruct dbf|]; cbn [negb andb].
    + cbn. destruct (run_cell w source n) as [[[]|?] ?]; reflexivity.
    + match goal with
      | |- context [showsyntaxerror w ?e filename ?s0] =>
          specialize (Hshow e); destruct (showsyntaxerror w e filename s0)
            as [[[]|?] ?]; exact Hshow
      end.
    + match goal with
      | |- context [showsyntaxerror w ?e filename ?s0] =>
          specialize (Hshow e); destruct (showsyntaxerror w e filename s0)
            as [[[]|?] ?]; exact Hshow
      end.
Qed.



(** * Further properties of the kernel *)

(** ** More on origin tags *)

Lemma prefix_take (n : nat) (s : string) : String.prefix (Py.take n s) s = true.
Proof.
  revert s. induction n as [|n IH]; intros [|c s]; cbn; try reflexivity.
  rewrite IH. destruct (ascii_dec c c); [reflexivity | congruence].
Qed.

Lemma prefix_same (s : string) : String.prefix s s = true.
Proof.
  induction s as [|c s IH]; cbn; [reflexivity|].
  rewrite IH. destruct (ascii_dec c c); [reflexivity | congruence].
Qed.

(** An occurrence is never found before the place the search starts. *)
Lemma find_from_lower (ch : ascii) (s : string) :
  forall i, 0 <= i -> Py.find_from ch s i = -1 \/ i <= Py.find_from ch s i.
Proof.
  induction s as [|c s IH]; intros i Hi; [left; reflexivity|].
  cbn [Py.find_from]. destruct (Ascii.eqb c ch); [right; lia|].
  destruct (IH (i + 1) ltac:(lia)); [left; assumption | right; lia].
Qed.

(** The part before the first occurrence does not contain the character. *)
Lemma find_from_take (ch : ascii) (s : string) :
  forall i, 0 <= i -> Py.find_from ch s i <> -1 ->
            Py.find_from ch (Py.take (Z.to_nat (Py.find_from ch s i - i)) s) i
            = -1.
Proof.
  induction s as [|c s IH]; intros i Hi Hfind; [cbn in Hfind; congruence|].
  cbn [Py.find_from] in Hfind |- *. destruct (Ascii.eqb c ch) eqn:Hc.
  - rewrite Z.sub_diag. reflexivity.
  - destruct (find_from_lower ch s (i + 1) ltac:(lia)) as [H|H];
      [congruence|].
    replace (Z.to_nat (Py.find_from ch s (i + 1) - i))
      with (S (Z.to_nat (Py.find_from ch s (i + 1) - (i + 1)))) by lia.
    cbn [Py.take Py.find_from]. rewrite Hc. apply IH; [lia | assumption].
Qed.

(** What [correctfilenameandlineno] can return: its arguments, or the part
    of the name before the first ['+'] with a line number moved by the
    number read after it. *)
Lemma corrected_cases (fname : string) (l : Z) :
  correctfilenameandlineno fname l = (fname, l)
  \/ (0 < Py.find "+" fname
      /\ exists k,
           Py.int (Py.slice_from (Py.find "+" fname + 1) fname) = Some k
           /\ correctfilenameandlineno fname l
              = (Py.slice_to (Py.find "+" fname) fname, l + k)).
Proof.
  unfold correctfilenameandlineno.
  destruct (0 <? Py.find "+" fname) eqn:Hpos; [|left; reflexivity].
  apply Z.ltb_lt in Hpos.
  destruct (Py.int _) as [k|] eqn:Hint; [|left; reflexivity].
  right. split; [assumption|]. exists k. split; reflexivity.
Qed.

Lemma corrected_without_plus (fname : string) (l : Z) :
  Py.find "+" fname = -1 -> correctfilenameandlineno fname l = (fname, l).
Proof. intros H. unfold correctfilenameandlineno. rewrite H. reflexivity. Qed.

(** X1: a block of a file whose non-empty name has no ['+'], submitted at
    any line offset (zero, where no suffix is added, included), gets a tag
    from which [correctfilenameandlineno] recovers the file name and
    shifts every line number by the offset. *)
Theorem block_tag_round_trip (fname : string) (lineno l : Z) :
  fname <> EmptyString -> Py.find "+" fname = -1 ->
  correctfilenameandlineno (block_tag fname lineno) l = (fname, l + lineno).
Proof.
  intros Hne Habsent. unfold block_tag.
  destruct (lineno =? 0) eqn:Hzero.
  - apply Z.eqb_eq in Hzero. subst lineno.
    rewrite corrected_without_plus by assumption. f_equal. lia.
  - apply origin_round_trip; assumption.
Qed.

Lemma block_tag_round_trip_witness :
  correctfilenameandlineno (block_tag "ex.py" 10) 2 = ("ex.py", 2 + 10).
Proof.
  apply (block_tag_round_trip "ex.py" 10 2); [discriminate | reflexivity].
Defined.


(** X2: the file name [correctfilenameandlineno] returns is always a
    prefix of the one it was given; when the result differs from the
    arguments, the returned name is strictly shorter and has no ['+']
    left. *)
Theorem corrected_name_is_prefix (fname : string) (l : Z) :
  String.prefix (fst (correctfilenameandlineno fname l)) fname = true
  /\ (correctfilenameandlineno fname l = (fname, l)
      \/ (Py.find "+" (fst (correctfilenameandlineno fname l)) = -1
          /\ (String.length (fst (correctfilenameandlineno fname l))
              < String.length fname)%nat)).
Proof.
  destruct (corrected_cases fname l) as [->|(Hpos & k & _ & ->)]; cbn [fst].
  - split; [apply prefix_same | left; reflexivity].
  - split; [apply prefix_take|]. right. unfold Py.slice_to, Py.find in *.
    split.
    + pose proof (find_from_take "+" fname 0 ltac:(lia) ltac:(lia)) as H.
      rewrite Z.sub_0_r in H. exact H.
    + pose proof (PyFacts.length_take (Z.to_nat (Py.find_from "+" fname 0)) fname).
      destruct (PyFacts.find_from_upper "+" fname 0 ltac:(lia)) as [Hup| ->];
        [unfold Py.len in Hup; lia | cbn in Hpos; lia].
Qed.

(** X3: correcting twice is the same as correcting once. *)
Theorem correctfilenameandlineno_idempotent (fname : string) (l : Z) :
  correctfilenameandlineno (fst (correctfilenameandlineno fname l))
    (snd (correctfilenameandlineno fname l))
  = correctfilenameandlineno fname l.
Proof.
  destruct (corrected_cases fname l) as [H|(Hpos & k & _ & H)].
  - rewrite H. cbn [fst snd]. exact H.
  - rewrite H. cbn [fst snd]. apply corrected_without_plus.
    unfold Py.slice_to, Py.find.
    pose proof (find_from_take "+" fname 0 ltac:(lia)) as Htake.
    rewrite Z.sub_0_r in Htake. apply Htake. unfold Py.find in Hpos. lia.
Qed.

(** ** What [showtraceback] writes and records *)

Lemma for_each_write (texts : list string) (s : interp) :
  for_each texts write s = (Return tt, written texts s).
Proof.
  revert s. induction texts as [|text texts IH]; intros s; [reflexivity|].
  cbn [for_each]. unfold bind, write at 1, modify. rewrite IH. reflexivity.
Qed.

Lemma sys_last_written (texts : list string) (s : interp) :
  sys_last (written texts s) = sys_last s.
Proof.
  revert s. induction texts as [|text texts IH]; intros s; [reflexivity|].
  cbn [written fold_left]. fold (written texts (emit (Stderr text) s)).
  rewrite IH. apply sys_last_emit.
Qed.

Lemma codeCollection_recorded (r : raised) (tb : traceback) (s : interp) :
  _codeCollection (recorded r tb s) = _codeCollection s.
Proof. destruct s; reflexivity. Qed.

(** [showtraceback(True)]: the recorded exception is formatted again. *)
Lemma showtraceback_last (w : World) (cur : raised) (s : interp) :
  showtraceback w cur true s
  = (Return tt,
     match default [] (sys_last_traceback s) with
     | [] => emit (Stderr apology) s
     | tb => written (traceback_lines w (_codeCollection s) (sys_last_type s)
                        (sys_last_value s) tb) s
     end).
Proof.
  cbv [showtraceback try_clauses bind get self ret tb_next pop0 raise modify
         first_clause].
  destruct (default [] (sys_last_traceback s)) as [|e tb]; [reflexivity|].
  cbn [map]. rewrite for_each_write. reflexivity.
Qed.

(** [showtraceback()]: the exception being handled is recorded, unless the
    kernel is in debug mode, and formatted without the kernel's frame. *)
Lemma showtraceback_current (w : World) (cur : raised) (s : interp) :
  showtraceback w cur false s
  = match r_tb cur with
    | [] => (Return tt, emit (Stderr apology) s)
    | _ :: tb =>
        let s1 := if in_debug s then s else recorded cur tb s in
        (Return tt,
         match tb with
         | [] => emit (Stderr apology) s1
         | _ => written (traceback_lines w (_codeCollection s)
                           (Some (r_class cur)) (Some (r_value cur)) tb) s1
         end)
    end.
Proof.
  cbv [showtraceback try_clauses bind get self ret tb_next pop0 raise modify
         first_clause].
  destruct (r_tb cur) as [|k tb]; [reflexivity|].
  destruct (in_debug s); cbn [negb]; destruct tb as [|e tb]; try reflexivity;
    cbn [map]; rewrite for_each_write;
    rewrite ?codeCollection_recorded; try reflexivity.
  unfold recorded. destruct s; reflexivity.
Qed.

(** X4: [showtraceback] never raises, whatever the exception, the flag
    and the state: the failures of its own walk over the traceback are
    caught by its last-resort handler. *)
Theorem showtraceback_never_raises (w : World) (cur : raised) (b : bool)
  (s : interp) :
  fst (showtraceback w cur b s) = Return tt.
Proof.
  destruct b; [rewrite showtraceback_last; reflexivity|].
  rewrite showtraceback_current. destruct (r_tb cur); reflexivity.
Qed.

(** X5: redisplaying the last traceback when none was recorded (or an
    empty one) writes the apology and nothing else, and changes nothing
    but the trace. *)
Theorem showtraceback_last_without_record (w : World) (cur : raised)
  (s : interp) :
  default [] (sys_last_traceback s) = [] ->
  showtraceback w cur true s = (Return tt, emit (Stderr apology) s).
Proof. intros Hnone. rewrite showtraceback_last, Hnone. reflexivity. Qed.

Lemma showtraceback_last_without_record_witness :
  showtraceback Scenario.two_blocks Scenario.zero_division true
    (Scenario.fresh EmptyString None)
  = (Return tt, emit (Stderr apology) (Scenario.fresh EmptyString None)).
Proof.
  apply (showtraceback_last_without_record Scenario.two_blocks
           Scenario.zero_division (Scenario.fresh EmptyString None)).
  reflexivity.
Defined.

Lemma sys_last_recorded (r : raised) (tb : traceback) (s : interp) :
  sys_last (recorded r tb s) = (Some (r_class r), Some (r_value r), Some tb).
Proof. destruct s; reflexivity. Qed.

(** X6: the [sys.last_*] globals after [showtraceback]: they change in
    exactly one situation, a fresh exception shown outside debug mode, and
    then hold its type, its value and its traceback without the kernel's
    own first frame, even when writing the traceback then fails. *)
Theorem showtraceback_sys_last (w : World) (cur : raised) (b : bool)
  (s : interp) :
  sys_last (snd (showtraceback w cur b s))
  = if b || in_debug s then sys_last s
    else match r_tb cur with
         | [] => sys_last s
         | _ :: tb => (Some (r_class cur), Some (r_value cur), Some tb)
         end.
Proof.
  destruct b; cbn [orb].
  - rewrite showtraceback_last. cbn [snd].
    destruct (default [] (sys_last_traceback s));
      [apply sys_last_emit | apply sys_last_written].
  - rewrite showtraceback_current.
    destruct (r_tb cur) as [|k tb]; cbn [snd].
    + rewrite sys_last_emit. destruct (in_debug s); reflexivity.
    + destruct (in_debug s); destruct tb;
        rewrite ?sys_last_emit, ?sys_last_written, ?sys_last_recorded;
        reflexivity.
Qed.

(** X7: where each traceback entry points after the rewrite (file name,
    line number, function name) is decided by [correctfilenameandlineno]
    alone: neither the stored sources nor the frames influence it, and no
    entry is added or dropped. *)
Theorem rewrite_tblist_places (coll : ExecutedSourceCollection.t)
  (frames : list frame) (i : nat) (tblist : list tbinfo) :
  map place (rewrite_tblist coll frames i tblist) = map corrected_place tblist.
Proof.
  revert i. induction tblist as [|[[[f l] name] text] tblist IH]; intros i;
    [reflexivity|].
  cbn [rewrite_tblist map]. rewrite IH. f_equal.
  unfold rewrite_entry, corrected_place, place.
  destruct (correctfilenameandlineno f l). reflexivity.
Qed.

(** ** How [execcode] ends *)

Lemma BdbQuit_is_Exception (r : raised) :
  isinstance BdbQuit r = true -> isinstance Exception r = true.
Proof. unfold isinstance. destruct (r_class r); cbn; congruence. Qed.

(** X8: [execcode] returns normally when the unit ends normally or with
    an instance of [Exception] or [KeyboardInterrupt]; anything else the
    unit raises leaves [execcode] as it is. *)
Theorem execcode_outcome (w : World) (c : code) (s : interp) :
  fst (execcode w c s)
  = match exec_unit w c with
    | None => Return tt
    | Some r =>
        if isinstance Exception r || isinstance KeyboardInterrupt r
        then Return tt
        else Raise r
    end.
Proof.
  rewrite execcode_dispatch. destruct (exec_unit w c) as [r|]; [|reflexivity].
  destruct (isinstance BdbQuit r) eqn:Hbdb.
  - rewrite (BdbQuit_is_Exception r Hbdb). reflexivity.
  - destruct (isinstance Exception r || isinstance KeyboardInterrupt r);
      [|reflexivity].
    rewrite showtraceback_current. destruct (r_tb r); reflexivity.
Qed.

(** ** One tick of the REPL *)

(** The start of every tick without a start-up script: prompt and status
    are sent, then the transport is checked. *)
Lemma tick_start (w : World) (t : tick) (s : interp) :
  no_script s = true ->
  _process_commands w t s
  = if transport_closed t
    then (Raise (new_exc SystemExit EmptyString), announced s)
    else match channel t with
         | NoChannel => ret tt
         | CtrlCommand line1 =>
             match line1 with
             | EmptyString => ret tt
             | _ =>
                 modify (emit (Echo line1)) ;;;
                 send_status "Busy" ;;;
                 modify (set_newPrompt true) ;;;
                 match convert_command w (Py.rstrip_nl line1) with
                 | Raise r => raise r
                 | Return (Some line2) =>
                     for_each (Py.split Py.LF line2) (push_and_note w)
                 | Return None => modify (set_more false) ;;; _resetbuffer
                 end
             end
         | CtrlCode msg =>
             match msg with
             | None => ret tt
             | Some msg =>
                 send_status "Busy" ;;;
                 modify (set_newPrompt true) ;;;
                 runlargecode w msg ;;;
                 _resetbuffer ;;;
                 modify (set_more false)
             end
         | OtherChannel => ret tt
         end (announced s).
Proof.
  intros Hscript. unfold _process_commands, no_script, transport_closed,
    announced in *.
  unfold bind at 1. unfold get at 1.
  destruct (_scriptToRunOnStartup s) as [[|c tmp]|]; try discriminate.
  all: unfold bind at 1; unfold ret at 1; unfold bind at 1; unfold self at 1;
    unfold bind at 1; unfold send_status at 1 2 3.
  all: destruct (newPrompt s); destruct (in_debug s); destruct (more s);
    destruct (stdin_closed t || (connection_count t =? 0)); reflexivity.
Qed.

(** X9: when the transport is closed (and no start-up script is
    pending), the tick sends the prompt and status and raises
    [SystemExit] before it looks at the channels: a waiting command or
    block is neither echoed, compiled nor executed, and the buffer is left
    as it was. *)
Theorem closed_transport_preempts_messages (w : World) (t : tick) (s : interp) :
  no_script s = true -> transport_closed t = true ->
  _process_commands w t s
  = (Raise (new_exc SystemExit EmptyString), announced s)
  /\ _buffer (announced s) = _buffer s
  /\ trace (announced s)
     = Status (if in_debug s then "Debug"
               else if more s then "More" else "Ready")
       :: (if newPrompt s
           then [Prompt (if more s then PS2 s else PS1 s)] else [])
       ++ trace s.
Proof.
  intros Hscript Hclosed. rewrite tick_start, Hclosed by assumption.
  unfold announced. destruct s as [? ? ? []]; repeat split.
Qed.

Lemma closed_transport_preempts_messages_witness :
  _process_commands Scenario.two_blocks
    (Tick true 1 (CtrlCode (Some Scenario.block1)))
    (Scenario.fresh EmptyString None)
  = (Raise (new_exc SystemExit EmptyString),
     announced (Scenario.fresh EmptyString None)).
Proof.
  apply (closed_transport_preempts_messages Scenario.two_blocks
           (Tick true 1 (CtrlCode (Some Scenario.block1)))
           (Scenario.fresh EmptyString None)); reflexivity.
Defined.

Lemma SystemExit_only (r : raised) :
  isinstance SystemExit r = true ->
  isinstance KeyboardInterrupt r = false /\ isinstance TypeError r = false.
Proof. unfold isinstance. destruct (r_class r); cbn; intros; split; congruence. Qed.

(** X10: a [SystemExit] out of the tick is stored as the exit intent
    first; then the debugger is told to stop, and only if that succeeds is
    [guiApp.quit()] called, whose outcome (by default a [SystemExit] of
    its own) is the outcome of [process_commands].  The exit intent is
    stored in every case. *)
Theorem process_commands_stores_exit_intent (w : World) (t : tick)
  (s s1 : interp) (r : raised) :
  _process_commands w t s = (Raise r, s1) ->
  isinstance SystemExit r = true ->
  process_commands w t s
  = match debugger_stopinteraction w with
    | Raise e =>
        (Raise e,
         emit StopInteraction (set_exitException (Some (r_value r)) s1))
    | Return _ =>
        (guiApp_quit w,
         emit GuiQuit
           (emit StopInteraction (set_exitException (Some (r_value r)) s1)))
    end
  /\ _exitException (snd (process_commands w t s)) = Some (r_value r).
Proof.
  intros Hraise Hexit. destruct (SystemExit_only r Hexit) as [Hki Hty].
  assert (Heq : process_commands w t s
    = match debugger_stopinteraction w with
      | Raise e =>
          (Raise e,
           emit StopInteraction (set_exitException (Some (r_value r)) s1))
      | Return _ =>
          (guiApp_quit w,
           emit GuiQuit
             (emit StopInteraction (set_exitException (Some (r_value r)) s1)))
      end).
  { unfold process_commands, try_clauses. rewrite Hraise.
    cbn [first_clause]. rewrite Hki, Hty, Hexit.
    unfold bind, modify, call. destruct (debugger_stopinteraction w) as [[]|e];
      reflexivity. }
  split; [exact Heq|]. rewrite Heq.
  destruct (debugger_stopinteraction w); destruct s1; reflexivity.
Qed.

Lemma process_commands_stores_exit_intent_witness :
  _exitException
    (snd (process_commands Scenario.failing_quit Scenario.closed_tick
            (Scenario.fresh EmptyString None)))
  = Some fresh_exit.
Proof.
  refine (proj2 (process_commands_stores_exit_intent Scenario.failing_quit
                   Scenario.closed_tick (Scenario.fresh EmptyString None)
                   (announced (Scenario.fresh EmptyString None))
                   (new_exc SystemExit EmptyString) _ _)); reflexivity.
Defined.

(** X11: an exception leaves [process_commands] only if the tick raised
    something that is neither a [KeyboardInterrupt] nor a [TypeError]:
    either that exception itself, when it is not a [SystemExit], or what
    the debugger or the GUI application raised while shutting down. *)
Theorem process_commands_escapes (w : World) (t : tick) (s : interp)
  (r' : raised) :
  fst (process_commands w t s) = Raise r' ->
  exists r s1,
    _process_commands w t s = (Raise r, s1)
    /\ isinstance KeyboardInterrupt r = false
    /\ isinstance TypeError r = false
    /\ (isinstance SystemExit r = false /\ r' = r
        \/ isinstance SystemExit r = true
           /\ (debugger_stopinteraction w = Raise r'
               \/ guiApp_quit w = Raise r')).
Proof.
  unfold process_commands, try_clauses.
  destruct (_process_commands w t s) as [[[]|r] s1] eqn:Htick;
    [discriminate|].
  cbn [first_clause].
  destruct (isinstance KeyboardInterrupt r) eqn:Hki; [discriminate|].
  destruct (isinstance TypeError r) eqn:Hty.
  { unfold bind, get. destruct (String.eqb (guiName s1) "WX"); discriminate. }
  intros Hout. exists r, s1.
  split; [reflexivity|]. split; [exact Hki|]. split; [exact Hty|].
  destruct (isinstance SystemExit r) eqn:Hexit.
  - right. split; [reflexivity|].
    unfold bind, modify, call in Hout.
    destruct (debugger_stopinteraction w) as [[]|e]; cbn [fst] in Hout.
    + right. exact Hout.
    + left. exact Hout.
  - left. split; [reflexivity|]. cbn in Hout. congruence.
Qed.

Lemma process_commands_escapes_witness :
  exists r s1,
    _process_commands Scenario.failing_quit Scenario.closed_tick
      (Scenario.fresh EmptyString None) = (Raise r, s1)
    /\ isinstance KeyboardInterrupt r = false
    /\ isinstance TypeError r = false
    /\ (isinstance SystemExit r = false /\ Scenario.quit_failure = r
        \/ isinstance SystemExit r = true
           /\ (debugger_stopinteraction Scenario.failing_quit
               = Raise Scenario.quit_failure
               \/ guiApp_quit Scenario.failing_quit
                  = Raise Scenario.quit_failure)).
Proof.
  apply (process_commands_escapes Scenario.failing_quit Scenario.closed_tick
           (Scenario.fresh EmptyString None) Scenario.quit_failure).
  reflexivity.
Defined.

(** ** Blocks, pending input and the registry *)

Lemma newPrompt_silent (s : interp) : newPrompt (silent s) = newPrompt s.
Proof. destruct s; reflexivity. Qed.

Lemma codeCollection_silent (s : interp) :
  _codeCollection (silent s) = _codeCollection s.
Proof. destruct s; reflexivity. Qed.

Lemma keeps_silent_newPrompt {A} (m : M A) : keeps silent m -> keeps newPrompt m.
Proof. intros H s. rewrite <- newPrompt_silent, H. apply newPrompt_silent. Qed.

Lemma keeps_silent_codeCollection {A} (m : M A) :
  keeps silent m -> keeps _codeCollection m.
Proof.
  intros H s. rewrite <- codeCollection_silent, H. apply codeCollection_silent.
Qed.

Lemma runlargecode_keeps_newPrompt (w : World) (msg : block_msg) :
  keeps newPrompt (runlargecode w msg).
Proof.
  unfold runlargecode. apply keeps_bind; [frame|intros _].
  apply keeps_bind;
    [apply keeps_modify; intros [? ? ? ? ? ? [n|]]; reflexivity | intros _].
  destruct (compilecode w _ _ _) as [code_|r].
  - unfold store_and_exec, write. destruct code_ as [c|]; [|frame].
    apply keeps_bind; [frame | intros _].
    apply keeps_silent_newPrompt, execcode_keeps_silent.
  - destruct (is_syntax_class r); [|apply keeps_raise].
    apply keeps_silent_newPrompt, showsyntaxerror_keeps_silent.
Qed.




(** ** Lines that accumulate *)

Lemma push_incomplete (w : World) (line : string) (s : interp) :
  incomplete (compilecode w (Py.join Py.nl (_buffer s ++ [line]))
                (_filename s) "single") = true ->
  push_and_note w line s
  = (Return tt, set_more true (set_buffer (_buffer s ++ [line]) s)).
Proof.
  intros Hinc. unfold push_and_note, bind. rewrite pushline_unfold. cbv zeta.
  destruct (runlines_result w (Py.join Py.nl (_buffer s ++ [line]))
              (_filename s)
              (set_buffer [] (set_buffer (_buffer s ++ [line]) s)))
    as (Hrun & _). cbv zeta in Hrun. rewrite (Hrun Hinc).
  destruct s; reflexivity.
Qed.

Lemma push_all_incomplete (w : World) (rest : list string) :
  forall (line : string) (s : interp),
    (forall k, (0 < k <= S (length rest))%nat ->
       incomplete (compilecode w
                     (Py.join Py.nl (_buffer s ++ take k (line :: rest)))
                     (_filename s) "single") = true) ->
    for_each (line :: rest) (push_and_note w) s
    = (Return tt, set_more true (set_buffer (_buffer s ++ line :: rest) s)).
Proof.
  induction rest as [|next rest IH]; intros line s Hinc.
  - cbn [for_each]. unfold bind at 1.
    rewrite push_incomplete by (apply (Hinc 1%nat); cbn; lia). reflexivity.
  - change (for_each (line :: next :: rest) (push_and_note w))
      with (bind (push_and_note w line)
              (fun _ => for_each (next :: rest) (push_and_note w))).
    unfold bind at 1.
    rewrite push_incomplete by (apply (Hinc 1%nat); cbn; lia).
    rewrite IH.
    + destruct s; cbn. rewrite <- app_assoc. reflexivity.
    + intros k Hk. specialize (Hinc (S k) ltac:(cbn in *; lia)).
      destruct s; cbn in *. rewrite <- app_assoc. exact Hinc.
Qed.

(** X14: lines pushed one after the other while the compiler calls each
    joined buffer incomplete pile up in the buffer in order, behind what
    was already there; a continuation is expected, and nothing else of the
    interpreter changes: nothing is executed or written. *)
Theorem pushline_accumulates (w : World) (lines : list string) (s : interp) :
  lines <> [] ->
  (forall k, (0 < k <= length lines)%nat ->
     incomplete (compilecode w (Py.join Py.nl (_buffer s ++ take k lines))
                   (_filename s) "single") = true) ->
  for_each lines (push_and_note w) s
  = (Return tt, set_more true (set_buffer (_buffer s ++ lines) s)).
Proof.
  destruct lines as [|line rest]; [congruence|]. intros _ Hinc.
  apply push_all_incomplete. exact Hinc.
Qed.

Lemma pushline_accumulates_witness :
  for_each ["def f():"; "    return 42"]
    (push_and_note Scenario.magician_type_error)
    (Scenario.fresh EmptyString None)
  = (Return tt,
     set_more true
       (set_buffer ([] ++ ["def f():"; "    return 42"])
          (Scenario.fresh EmptyString None))).
Proof.
  apply (pushline_accumulates Scenario.magician_type_error
           ["def f():"; "    return 42"] (Scenario.fresh EmptyString None));
    [discriminate | intros k _; reflexivity].
Defined.

(** ** Syntax errors *)

Lemma trace_written (texts : list string) (s : interp) :
  trace (written texts s) = rev (map Stderr texts) ++ trace s.
Proof.
  revert s. induction texts as [|text texts IH]; intros s; [reflexivity|].
  cbn [written fold_left map rev]. fold (written texts (emit (Stderr text) s)).
  rewrite IH, <- app_assoc. destruct s; reflexivity.
Qed.

Lemma is_SyntaxError_exact (c : exc_class) :
  is_SyntaxError (Some c) = true <-> c = SyntaxError.
Proof. destruct c; cbn; split; congruence. Qed.



(** X16: on Python 2, a [SyntaxError] of a block of a file whose
    non-empty name has no ['+'], submitted at any offset, is reported
    under the file's own name with its line number moved by the offset;
    that rewritten exception is what is written and what is stored in
    [sys.last_value]. *)
Theorem showsyntaxerror_corrects_block (w : World) (fname : string)
  (lineno : Z) (s : interp) (msg filename line : string) (l offset : Z)
  (tb : traceback) :
  PYTHON_VERSION w < 3 -> fname <> EmptyString -> Py.find "+" fname = -1 ->
  showsyntaxerror w
    (Some (Raised (ExcValue SyntaxError (SyntaxArgs msg filename l offset line))
             tb))
    (block_tag fname lineno) s
  = (Return tt,
     written
       (format_exception_only w (Some SyntaxError)
          (Some (ExcValue SyntaxError
                   (SyntaxArgs msg fname (l + lineno) offset line))))
       (set_last_value
          (Some (ExcValue SyntaxError
                   (SyntaxArgs msg fname (l + lineno) offset line))) s)).
Proof.
  intros Hver Hne Habsent.
  assert (Hcorr : correctfilenameandlineno (block_tag fname lineno) l
                  = (fname, l + lineno)).
  { unfold block_tag. destruct (lineno =? 0) eqn:Hzero.
    - apply Z.eqb_eq in Hzero. subst lineno.
      rewrite corrected_without_plus by assumption. f_equal. lia.
    - apply origin_round_trip; assumption. }
  unfold showsyntaxerror, unpack_syntax. cbn [option_map r_class r_value e_class
    e_args is_SyntaxError].
  destruct (PYTHON_VERSION w <? 3) eqn:Hlt; [|apply Z.ltb_ge in Hlt; lia].
  rewrite Hcorr.
  assert (Htag : exists c rest, block_tag fname lineno = String c rest).
  { unfold block_tag. destruct (lineno =? 0).
    - destruct fname; [congruence | eauto].
    - rewrite origin_tag_cons. destruct fname; [congruence|].
      rewrite PyFacts.append_cons. eauto. }
  destruct Htag as (c & rest & ->).
  unfold bind, modify, ret. rewrite for_each_write. reflexivity.
Qed.

Lemma showsyntaxerror_corrects_block_witness :
  showsyntaxerror Scenario.python2_rejecting
    (Some (Raised (ExcValue SyntaxError
                     (SyntaxArgs "invalid syntax" "ex.py+10" 2 4 "x = = 1"))
             []))
    (block_tag "ex.py" 10) (Scenario.fresh EmptyString None)
  = (Return tt,
     written
       (format_exception_only Scenario.python2_rejecting (Some SyntaxError)
          (Some (ExcValue SyntaxError
                   (SyntaxArgs "invalid syntax" "ex.py" (2 + 10) 4 "x = = 1"))))
       (set_last_value
          (Some (ExcValue SyntaxError
                   (SyntaxArgs "invalid syntax" "ex.py" (2 + 10) 4 "x = = 1")))
          (Scenario.fresh EmptyString None))).
Proof.
  apply (showsyntaxerror_corrects_block Scenario.python2_rejecting "ex.py" 10
           (Scenario.fresh EmptyString None) "invalid syntax" "ex.py+10"
           "x = = 1" 2 4 []); [reflexivity | discriminate | reflexivity].
Defined.

(** ** The cookie rewrite keeps the lines in place *)

Lemma count_nonneg (ch : ascii) (s : string) : 0 <= Py.count ch s.
Proof.
  induction s as [|c s IH]; cbn [Py.count]; [lia|].
  destruct (Ascii.eqb c ch); lia.
Qed.

Lemma count_append (ch : ascii) (a b : string) :
  Py.count ch (a +:+ b) = Py.count ch a + Py.count ch b.
Proof.
  induction a as [|c a IH]; [reflexivity|].
  rewrite PyFacts.append_cons. cbn [Py.count]. rewrite IH. lia.
Qed.

Lemma split_from_nonempty (sep : ascii) (s : string) :
  forall (k : nat) (cur : string), Py.split_from sep k s cur <> [].
Proof.
  induction s as [|c s IH]; intros k cur; cbn [Py.split_from]; [discriminate|].
  destruct k; [discriminate|]. destruct (Ascii.eqb c sep); [discriminate|].
  apply IH.
Qed.

Lemma join_cons (sep p : string) (ps : list string) :
  ps <> [] -> Py.join sep (p :: ps) = p +:+ sep +:+ Py.join sep ps.
Proof. destruct ps; [congruence | reflexivity]. Qed.

(** Joining what [split] returned gives the string back. *)
Lemma join_split_from (s : string) :
  forall (k : nat) (cur : string),
    Py.join Py.nl (Py.split_from Py.LF k s cur) = cur +:+ s.
Proof.
  induction s as [|c s IH]; intros k cur; cbn [Py.split_from].
  - cbn. now rewrite append_nil_r.
  - destruct k; [reflexivity|]. destruct (Ascii.eqb c Py.LF) eqn:Hc.
    + rewrite join_cons by apply split_from_nonempty. rewrite IH.
      apply Ascii.eqb_eq in Hc. subst c. reflexivity.
    + rewrite IH. apply append_snoc.
Qed.

Lemma split_from_heads_clean (s : string) :
  forall (k : nat) (cur : string),
    Py.count Py.LF cur = 0 ->
    heads_clean (Py.split_from Py.LF k s cur) = true.
Proof.
  induction s as [|c s IH]; intros k cur Hcur; cbn [Py.split_from];
    [reflexivity|].
  destruct k; [reflexivity|]. destruct (Ascii.eqb c Py.LF) eqn:Hc.
  - pose proof (split_from_nonempty Py.LF s k EmptyString) as Hne.
    specialize (IH k EmptyString eq_refl).
    destruct (Py.split_from Py.LF k s EmptyString) as [|p ps]; [congruence|].
    change (heads_clean (cur :: p :: ps))
      with ((Py.count Py.LF cur =? 0) && heads_clean (p :: ps)).
    rewrite Hcur, IH. reflexivity.
  - apply IH. rewrite count_append. cbn [Py.count]. rewrite Hc. lia.
Qed.

(** Replacing inside a text without newlines, by a text without newlines,
    gives a text without newlines. *)
Lemma replace_from_clean (old new : string) (s : string) :
  Py.count Py.LF new = 0 ->
  forall skip, Py.count Py.LF s = 0 ->
               Py.count Py.LF (Py.replace_from old new skip s) = 0.
Proof.
  intros Hnew. induction s as [|c s IH]; intros skip Hs; [reflexivity|].
  cbn [Py.count] in Hs. pose proof (count_nonneg Py.LF s).
  assert (Hc : Ascii.eqb c Py.LF = false) by (destruct (Ascii.eqb c Py.LF); lia).
  rewrite Hc in Hs. cbn [Py.replace_from].
  destruct skip; [|apply IH; lia].
  destruct (String.prefix old (String c s)).
  - rewrite count_append, Hnew, IH by lia. reflexivity.
  - cbn [Py.count]. rewrite Hc, IH by lia. reflexivity.
Qed.

Lemma mangle_parts_nonempty (parts : list string) :
  parts <> [] -> snd (mangle_parts parts) <> [].
Proof.
  destruct parts as [|tmp [|p ps]]; [congruence|intros _; cbn; discriminate|].
  intros _.
  change (mangle_parts (tmp :: p :: ps))
    with (let '(contained_coding, out) := mangle_parts (p :: ps) in
          if has_coding tmp
          then (true, Py.replace "coding:" ci (Py.replace "coding=" ci tmp) :: out)
          else (contained_coding, tmp :: out)).
  destruct (mangle_parts (p :: ps)) as [cc out].
  destruct (has_coding tmp); discriminate.
Qed.

Lemma mangle_parts_count (parts : list string) :
  heads_clean parts = true ->
  Py.count Py.LF (Py.join Py.nl (snd (mangle_parts parts)))
  = Py.count Py.LF (Py.join Py.nl parts).
Proof.
  induction parts as [|tmp parts IH]; [reflexivity|].
  destruct parts as [|p ps]; [reflexivity|]. intros Hclean.
  change (heads_clean (tmp :: p :: ps))
    with ((Py.count Py.LF tmp =? 0) && heads_clean (p :: ps)) in Hclean.
  apply andb_true_iff in Hclean as [Htmp Hrest]. apply Z.eqb_eq in Htmp.
  specialize (IH Hrest).
  pose proof (mangle_parts_nonempty (p :: ps) ltac:(discriminate)) as Hne.
  change (mangle_parts (tmp :: p :: ps))
    with (let '(contained_coding, out) := mangle_parts (p :: ps) in
          if has_coding tmp
          then (true, Py.replace "coding:" ci (Py.replace "coding=" ci tmp) :: out)
          else (contained_coding, tmp :: out)).
  destruct (mangle_parts (p :: ps)) as [cc out]. cbn [snd] in IH, Hne.
  rewrite (join_cons Py.nl tmp (p :: ps)) by discriminate.
  destruct (has_coding tmp); cbn [snd]; rewrite join_cons by assumption;
    rewrite !count_append, IH; [|reflexivity].
  unfold Py.replace. rewrite replace_from_clean; [lia|reflexivity|].
  apply replace_from_clean; [reflexivity | assumption].
Qed.

(** X17: the cookie rewrite of [compilecode] never changes the number of
    newlines of a source, so every line keeps its line number. *)
Theorem mangled_source_keeps_line_count (source : string) :
  Py.count Py.LF (mangled_source source) = Py.count Py.LF source.
Proof.
  unfold mangled_source, Py.split_max.
  pose proof (mangle_parts_count (Py.split_from Py.LF 2 source EmptyString)
                (split_from_heads_clean source 2 EmptyString eq_refl)) as Hcount.
  rewrite join_split_from in Hcount.
  destruct (mangle_parts (Py.split_from Py.LF 2 source EmptyString))
    as [[] parts']; [exact Hcount | reflexivity].
Qed.

(** ** The start-up script *)

(** Replacing every occurrence of a character leaves none behind. *)
Lemma replace_char_gone (c : ascii) (new s : string) :
  Py.count c new = 0 ->
  Py.count c (Py.replace (String c EmptyString) new s) = 0.
Proof.
  intros Hnew. unfold Py.replace. induction s as [|a s IH]; [reflexivity|].
  cbn [Py.replace_from String.prefix String.length Nat.sub].
  destruct (ascii_dec c a) as [->|Hne].
  - assert (Hpre : String.prefix EmptyString s = true)
      by (destruct s; reflexivity).
    rewrite Hpre, count_append, Hnew, IH. reflexivity.
  - cbn [Py.count]. rewrite IH.
    destruct (Ascii.eqb a c) eqn:Hac; [|reflexivity].
    apply Ascii.eqb_eq in Hac. congruence.
Qed.

Lemma replace_nonempty (old c : string) (ch : ascii) (s : string) :
  s <> EmptyString -> Py.replace old (String ch c) s <> EmptyString.
Proof.
  destruct s as [|a s]; [congruence|]. intros _. unfold Py.replace.
  cbn [Py.replace_from]. destruct (String.prefix old (String a s));
    [rewrite PyFacts.append_cons|]; discriminate.
Qed.

Lemma nth_error_last_char (x : string) (c : ascii) :
  nth_error (list_ascii_of_string (String c x)) (String.length x)
  = last_char (String c x).
Proof.
  revert c. induction x as [|a x IH]; intros c; [reflexivity|].
  change (last_char (String c (String a x))) with (last_char (String a x)).
  rewrite <- IH. reflexivity.
Qed.

Lemma length_list_ascii (x : string) :
  length (list_ascii_of_string x) = String.length x.
Proof. induction x as [|a x IH]; cbn; [reflexivity | now rewrite IH]. Qed.

(** [source[-1]] is the last character, [IndexError] on the empty string. *)
Lemma index_last_char (x : string) :
  Py.index (list_ascii_of_string x) (-1) = last_char x.
Proof.
  destruct x as [|c x]; [reflexivity|]. unfold Py.index.
  rewrite length_list_ascii. cbn [String.length].
  change (-1 <? 0) with true. cbv iota.
  destruct ((0 <=? -1 + Z.of_nat (S (String.length x)))
            && (-1 + Z.of_nat (S (String.length x))
                <? Z.of_nat (S (String.length x)))) eqn:Hin.
  - replace (Z.to_nat (-1 + Z.of_nat (S (String.length x))))
      with (String.length x) by lia.
    apply nth_error_last_char.
  - apply andb_false_iff in Hin as [H|H];
      [apply Z.leb_gt in H | apply Z.ltb_ge in H]; lia.
Qed.

Lemma last_char_append_nl (x : string) : last_char (x +:+ Py.nl) = Some Py.LF.
Proof.
  induction x as [|c x IH]; [reflexivity|].
  rewrite PyFacts.append_cons. cbn [last_char].
  destruct (x +:+ Py.nl) eqn:Hx; [|exact IH]. discriminate.
Qed.

Lemma last_char_none (x : string) : last_char x = None -> x = EmptyString.
Proof.
  induction x as [|c x IH]; [reflexivity|]. cbn [last_char].
  destruct x; [discriminate|]. intros H. specialize (IH H). discriminate.
Qed.

(** [runfile] in terms of the text it compiles. *)
Lemma runfile_by_script_source (w : World) (fname : string) (s : interp) :
  runfile w fname s
  = match read_script w fname with
    | None =>
        (Return tt,
         emit (Stdout ("Could not read script (decoding using UTF-8): "
                         +:+ dq +:+ fname +:+ dq +:+ Py.nl)) s)
    | Some text =>
        match script_source text with
        | None =>
            (Return tt,
             emit (Stdout ("Could not execute script: " +:+ dq +:+ fname
                             +:+ dq +:+ Py.nl)) s)
        | Some source =>
            match compilecode w source fname "exec" with
            | Raise r =>
                if is_syntax_class r
                then showsyntaxerror w (Some r) fname (emit (Sleep 200) s)
                else (Raise r, s)
            | Return code_ => store_and_exec w code_ source s
            end
        end
    end.
Proof.
  unfold runfile, script_source. destruct (read_script w fname) as [text|];
    [|reflexivity].
  destruct (Py.index _ (-1)) as [last|]; [|reflexivity].
  destruct (compilecode w _ fname "exec") as [code_|r]; [reflexivity|].
  destruct (is_syntax_class r); reflexivity.
Qed.



(** ** Prompts *)

Lemma all_numeric_dec_digits (f : nat) :
  forall (n : Z) (rest : string),
    all_chars numeric rest = true ->
    all_chars numeric (Py.dec_digits f n rest) = true.
Proof.
  induction f as [|f IH]; intros n rest Hrest; [exact Hrest|].
  cbn [Py.dec_digits].
  assert (Hacc : all_chars numeric (String (Py.digit_char (n mod 10)) rest)
                 = true).
  { cbn [all_chars]. unfold numeric at 1.
    rewrite PyFacts.is_digit_digit_char by apply PyFacts.mod10_range.
    exact Hrest. }
  destruct (n <? 10); [exact Hacc | apply IH, Hacc].
Qed.

Lemma all_numeric_fmt_i (n : Z) : all_chars numeric (Py.fmt_i n) = true.
Proof.
  unfold Py.fmt_i, Py.dec. destruct (n <? 0).
  - cbn [all_chars]. rewrite all_numeric_dec_digits; reflexivity.
  - apply all_numeric_dec_digits. reflexivity.
Qed.

(** Digits and signs are shown as they are. *)
Lemma visible_numeric (d rest : string) :
  all_chars numeric d = true ->
  visible_from false (d +:+ rest) = d +:+ visible_from false rest.
Proof.
  induction d as [|c d IH]; [reflexivity|]. cbn [all_chars].
  intros [Hc Hd]%andb_true_iff. rewrite !PyFacts.append_cons.
  cbn [visible_from].
  destruct (Ascii.eqb c (ascii_of_nat 27)) eqn:Hesc.
  - apply Ascii.eqb_eq in Hesc. subst c. discriminate.
  - now rewrite IH.
Qed.

Lemma visible_spaces (k : nat) (rest : string) :
  visible_from false (spaces k +:+ rest) = spaces k +:+ visible_from false rest.
Proof.
  induction k as [|k IH]; [reflexivity|].
  cbn [spaces]. rewrite !PyFacts.append_cons.
  change (visible_from false (String " " (spaces k +:+ rest)))
    with (String " " (visible_from false (spaces k +:+ rest))).
  now rewrite IH.
Qed.

Lemma length_spaces (k : nat) : String.length (spaces k) = k.
Proof. induction k as [|k IH]; cbn; [reflexivity | now rewrite IH]. Qed.

Lemma visible_PS1_head (rest : string) :
  visible_from false (ESC +:+ "[0;32mIn [" +:+ ESC +:+ "[1;32m" +:+ rest)
  = "In [" +:+ visible_from false rest.
Proof. reflexivity. Qed.

Lemma visible_PS2_head (rest : string) :
  visible_from false (ESC +:+ "[0;32m" +:+ rest) = visible_from false rest.
Proof. reflexivity. Qed.

(** X19: with IPython loaded and outside debug mode, what the two
    prompts show on screen is [In [N]: ] for PS1 and, for PS2, blanks
    followed by [...: ]; whatever the execution count, both take the same
    number of columns, so continuation lines stay aligned. *)
Theorem ipython_prompts_align (s : interp) (n : Z) :
  in_debug s = false -> _ipython s = Some n ->
  visible (PS1 s) = "In [" +:+ Py.fmt_i n +:+ "]: "
  /\ visible (PS2 s)
     = spaces (String.length (Py.fmt_i n) + 2) +:+ "...: "
  /\ String.length (visible (PS2 s)) = String.length (visible (PS1 s)).
Proof.
  intros Hdbg Hip.
  assert (H1 : visible (PS1 s) = "In [" +:+ Py.fmt_i n +:+ "]: ").
  { unfold visible, PS1. rewrite Hdbg, Hip. rewrite visible_PS1_head.
    rewrite visible_numeric by apply all_numeric_fmt_i. reflexivity. }
  assert (H2 : visible (PS2 s)
               = spaces (String.length (Py.fmt_i n) + 2) +:+ "...: ").
  { unfold visible, PS2. rewrite Hdbg, Hip. cbv zeta.
    rewrite visible_PS2_head, visible_spaces. reflexivity. }
  split; [exact H1|]. split; [exact H2|].
  rewrite H1, H2, !PyFacts.length_append, length_spaces. cbn [String.length].
  lia.
Qed.

Lemma ipython_prompts_align_witness :
  String.length (visible (PS2 (Scenario.fresh EmptyString (Some 12))))
  = String.length (visible (PS1 (Scenario.fresh EmptyString (Some 12)))).
Proof.
  refine (proj2 (proj2 (ipython_prompts_align
                          (Scenario.fresh EmptyString (Some 12)) 12 _ _)));
    reflexivity.
Defined.

(** ** Attributes the lines-and-blocks layer never touches *)

Section Attributes.

(** An observation of the interpreter that does not look at the trace,
    the [sys.last_*] globals, the IPython shell, the registry or the
    buffer. *)
Context {B : Type} (f : interp -> B).
Hypothesis f_emit : forall ev s, f (emit ev s) = f s.
Hypothesis f_last_type : forall v s, f (set_last_type v s) = f s.
Hypothesis f_last_value : forall v s, f (set_last_value v s) = f s.
Hypothesis f_last_traceback : forall v s, f (set_last_traceback v s) = f s.
Hypothesis f_ipython : forall v s, f (set_ipython v s) = f s.
Hypothesis f_codeCollection : forall v s, f (set_codeCollection v s) = f s.
Hypothesis f_buffer : forall v s, f (set_buffer v s) = f s.

Ltac attr :=
  repeat first
    [ solve [auto]
    | apply keeps_ret | apply keeps_raise | apply keeps_get | apply keeps_self
    | apply keeps_bind; [|intros ?]
    | apply keeps_for_each; intros ?
    | apply keeps_modify; intros ?;
      solve [ rewrite ?f_emit, ?f_last_type, ?f_last_value, ?f_last_traceback,
                ?f_ipython, ?f_codeCollection, ?f_buffer; reflexivity ]
    | apply keeps_try_clauses; [|repeat constructor; cbn [snd]; intros ?]
    | match goal with
      | |- keeps _ (match ?x with _ => _ end) => destruct x
      end ].

Lemma attr_showsyntaxerror (w : World) (e : option raised) (filename : string) :
  keeps f (showsyntaxerror w e filename).
Proof. unfold showsyntaxerror, write. attr. Qed.

Lemma attr_showtraceback (w : World) (cur : raised) (b : bool) :
  keeps f (showtraceback w cur b).
Proof. unfold showtraceback, write, pop0, tb_next. attr. Qed.

Lemma attr_execcode (w : World) (c : code) : keeps f (execcode w c).
Proof.
  pose proof (attr_showtraceback w) as Hshow.
  unfold execcode, dbstop_handler. apply keeps_try_clauses.
  - intros s. destruct (exec_unit w c); apply f_emit.
  - repeat constructor; cbn [snd]; intros r; attr.
Qed.

Lemma attr_store_and_exec (w : World) (code_ : option code) (source : string) :
  keeps f (store_and_exec w code_ source).
Proof.
  pose proof (attr_execcode w) as Hexec.
  unfold store_and_exec, write. destruct code_ as [c|]; attr.
Qed.

Lemma attr_runlargecode (w : World) (msg : block_msg) :
  keeps f (runlargecode w msg).
Proof.
  pose proof (attr_store_and_exec w) as Hstore.
  pose proof (attr_showsyntaxerror w) as Hshow.
  unfold runlargecode. apply keeps_bind; [attr | intros _].
  apply keeps_bind; [|intros _].
  - apply keeps_modify. intros s. destruct (_ipython s); [apply f_ipython|].
    reflexivity.
  - destruct (compilecode w _ _ _) as [code_|r]; [apply Hstore|].
    destruct (is_syntax_class r); [apply Hshow | apply keeps_raise].
Qed.

Lemma attr_runfile (w : World) (fname : string) : keeps f (runfile w fname).
Proof.
  pose proof (attr_store_and_exec w) as Hstore.
  pose proof (attr_showsyntaxerror w) as Hshow.
  unfold runfile. destruct (read_script w fname) as [text|]; [|attr].
  destruct (Py.index _ (-1)) as [last|]; [|attr].
  destruct (compilecode w _ fname _) as [code_|r]; [apply Hstore|].
  destruct (is_syntax_class r); [|apply keeps_raise].
  apply keeps_bind; [attr | intros _; apply Hshow].
Qed.

Lemma attr_runlines (w : World) (source filename : string) :
  keeps f (_runlines w source filename).
Proof.
  pose proof (attr_execcode w) as Hexec.
  pose proof (attr_showsyntaxerror w) as Hshow.
  unfold _runlines. apply keeps_bind; [attr | intros s0].
  apply keeps_bind; [attr | intros compiled].
  assert (Hcell : keeps f
            (bind (modify (emit (RunCell source)))
               (fun _ =>
                  bind (fun s' : interp =>
                          match _ipython s' with
                          | Some n =>
                              let '(res, n') := run_cell w source n in
                              (res, set_ipython (Some n') s')
                          | None => (Return tt, s')
                          end)
                    (fun _ => ret false)))).
  { apply keeps_bind; [attr | intros _]. apply keeps_bind; [|attr].
    intros s. destruct (_ipython s); [|reflexivity].
    destruct (run_cell w source _). apply f_ipython. }
  destruct (match _ipython s0 with
            | Some _ => negb (in_debug s0)
            | None => false
            end).
  - destruct compiled as [[c|]|r]; [exact Hcell | attr | exact Hcell].
  - destruct compiled as [[c|]|r]; attr.
Qed.

Lemma attr_pushline (w : World) (line : string) : keeps f (pushline w line).
Proof.
  pose proof (attr_runlines w) as Hrun.
  unfold pushline, _resetbuffer. attr.
Qed.

End Attributes.

(** ** The next prompt *)

Lemma pushline_keeps_newPrompt (w : World) (line : string) :
  keeps newPrompt (pushline w line).
Proof. apply attr_pushline; intros ? []; reflexivity. Qed.

Lemma announced_fields (s : interp) :
  _buffer (announced s) = _buffer s /\ _filename (announced s) = _filename s.
Proof. unfold announced. destruct s as [? ? ? []]; split; reflexivity. Qed.



(** ** The start-up script runs once *)

Lemma bind_assoc {A B C} (m : M A) (k : A -> M B) (h : B -> M C) (s : interp) :
  bind (bind m k) h s = bind m (fun a => bind (k a) h) s.
Proof. unfold bind. destruct (m s) as [[a|r] s1]; reflexivity. Qed.

Lemma push_and_note_keeps_script (w : World) (line : string) :
  keeps _scriptToRunOnStartup
    (bind (pushline w line) (fun m => modify (set_more m))).
Proof.
  apply keeps_bind; [apply attr_pushline; intros ? []; reflexivity|].
  intros m. apply keeps_modify. intros []; reflexivity.
Qed.

(** Everything a tick does after the start-up script leaves the pending
    script alone. *)
Lemma keeps_script_after_startup (w : World) (t : tick) {A} (m : M A) :
  keeps _scriptToRunOnStartup m ->
  keeps _scriptToRunOnStartup
    (bind m (fun _ =>
     s <- self ;;
     (if newPrompt s then
        modify (set_newPrompt false) ;;;
        modify (emit (Prompt (if more s then PS2 s else PS1 s)))
      else ret tt) ;;;
     (if in_debug s then send_status "Debug"
      else if more s then send_status "More"
      else send_status "Ready") ;;;
     (if stdin_closed t || (connection_count t =? 0)
      then raise (new_exc SystemExit EmptyString)
      else ret tt) ;;;
     match channel t with
     | NoChannel => ret tt
     | CtrlCommand line1 =>
         match line1 with
         | EmptyString => ret tt
         | _ =>
             modify (emit (Echo line1)) ;;;
             send_status "Busy" ;;;
             modify (set_newPrompt true) ;;;
             match convert_command w (Py.rstrip_nl line1) with
             | Raise r => raise r
             | Return (Some line2) =>
                 for_each (Py.split Py.LF line2)
                   (fun line3 => m <- pushline w line3 ;; modify (set_more m))
             | Return None =>
                 modify (set_more false) ;;; _resetbuffer
             end
         end
     | CtrlCode msg =>
         match msg with
         | None => ret tt
         | Some msg =>
             send_status "Busy" ;;;
             modify (set_newPrompt true) ;;;
             runlargecode w msg ;;;
             _resetbuffer ;;;
             modify (set_more false)
         end
     | OtherChannel => ret tt
     end)).
Proof.
  intros Hm.
  pose proof (push_and_note_keeps_script w) as Hpush.
  assert (Hblock : forall msg, keeps _scriptToRunOnStartup (runlargecode w msg))
    by (intros msg; apply attr_runlargecode; intros ? []; reflexivity).
  unfold send_status, _resetbuffer.
  apply keeps_bind; [exact Hm | intros _].
  apply keeps_bind; [apply keeps_self | intros s].
  repeat first
    [ solve [auto]
    | apply keeps_ret | apply keeps_raise
    | apply keeps_bind; [|intros ?]
    | apply keeps_for_each; intros ?
    | apply keeps_modify; intros []; reflexivity
    | match goal with
      | |- keeps _ (match ?x with _ => _ end) => destruct x
      end ].
Qed.

(** X21: after any tick, however it ends, no start-up script is pending
    any more: the script is taken off the interpreter before it is run, so
    it runs in one tick at most, even when running it raises. *)
Theorem startup_script_runs_once (w : World) (t : tick) (s : interp) :
  no_script (snd (_process_commands w t s)) = true.
Proof.
  unfold no_script, _process_commands. unfold bind at 1. unfold get at 1.
  destruct (_scriptToRunOnStartup s) as [[|c tmp]|] eqn:Hscript.
  - rewrite (keeps_script_after_startup w t (ret tt) (keeps_ret _ _) s).
    rewrite Hscript. reflexivity.
  - unfold send_status. rewrite bind_assoc, bind_modify, bind_assoc, bind_modify.
    rewrite (keeps_script_after_startup w t (runfile w (String c tmp))).
    + destruct s; reflexivity.
    + apply attr_runfile; intros ? []; reflexivity.
  - rewrite (keeps_script_after_startup w t (ret tt) (keeps_ret _ _) s).
    rewrite Hscript. reflexivity.
Qed.

(** ** The exit intent after [run] *)

(** X22: unless the event loop ends with an exception that is not a
    [SystemExit], the exception [run] raises is exactly the exit intent it
    leaves stored on the interpreter. *)
Theorem run_raises_stored_intent (w : World) (s : interp) :
  (forall r s1,
     guiApp_run w (process_commands w) (set_exitException None s)
     = (Raise r, s1) ->
     isinstance SystemExit r = true) ->
  exists e, fst (run w s) = Raise (Raised e [])
            /\ _exitException (snd (run w s)) = Some e.
Proof.
  intros Hloop.
  assert (Hpair : exists e s', run w s = (Raise (Raised e []), s')
                               /\ _exitException s' = Some e).
  { unfold run. rewrite bind_modify. unfold bind at 1. unfold try_clauses.
    destruct (guiApp_run w (process_commands w) (set_exitException None s))
      as [[[]|r] s1] eqn:Hrun.
    - unfold bind, get, modify, raise.
      eexists. eexists. split; [reflexivity|]. destruct s1; reflexivity.
    - cbn [first_clause]. rewrite (Hloop r s1 eq_refl).
      unfold bind, get, modify, raise, ret.
      destruct s1 as [? ? ? ? ? ? ? ? ? [e|]];
        (eexists; eexists; split; [reflexivity|]; reflexivity). }
  destruct Hpair as (e & s' & -> & Hs'). exists e. split; [reflexivity|].
  exact Hs'.
Qed.

Lemma run_raises_stored_intent_witness :
  exists e,
    fst (run Scenario.closing (Scenario.fresh EmptyString None))
    = Raise (Raised e [])
    /\ _exitException
         (snd (run Scenario.closing (Scenario.fresh EmptyString None)))
       = Some e.
Proof.
  apply (run_raises_stored_intent Scenario.closing
           (Scenario.fresh EmptyString None)).
  intros r s1 Hloop. vm_compute in Hloop. injection Hloop as <- _.
  reflexivity.
Defined.

(** ** The innermost frame of a traceback *)

Lemma rewrite_tblist_app (coll : ExecutedSourceCollection.t)
  (frames : list frame) (a b : list tbinfo) :
  forall i,
    rewrite_tblist coll frames i (a ++ b)
    = rewrite_tblist coll frames i a
      ++ rewrite_tblist coll frames (i + length a) b.
Proof.
  induction a as [|x a IH]; intros i.
  - cbn. now rewrite Nat.add_0_r.
  - cbn [app rewrite_tblist length]. rewrite IH. cbn [app].
    now rewrite Nat.add_succ_r.
Qed.

